(** * Sharpener-Gyro: angle tracker, DNS catch-all and HTTP engine

    A shallow embedding of [reader.py] and [main.py].

    Numbers.  Python floats are idealised as real numbers ([R]): the
    arithmetic of [reader.py] is [+], [-], [*], [/], [math.sqrt],
    [math.atan2] and [math.degrees], and every statement below about
    angles is a statement about that arithmetic carried out exactly.
    Where the specification says "within floating tolerance" the
    theorems state the exact equality of which the tolerance is the
    floating-point shadow.

    Faults.  Python exceptions are values of [exn]; a computation that
    may raise returns [res A].  Code that touches the I2C bus or sleeps
    threads a [world] through a state-and-exception monad [M]. *)

From Stdlib Require Import Reals Lra Lia ZArith List String Ascii Bool.
From Stdlib Require Import Init.Byte DecimalString.
Import ListNotations.

Open Scope R_scope.

(** ** Exceptions and results *)

Inductive exn : Type :=
| OSError
| ZeroDivisionError
| ValueError
| UnicodeError.

Inductive res (A : Type) : Type :=
| Ok (a : A)
| Raise (e : exn).

Arguments Ok {A} a.
Arguments Raise {A} e.

Definition res_bind {A B : Type} (r : res A) (k : A -> res B) : res B :=
  match r with
  | Ok a => k a
  | Raise e => Raise e
  end.

Declare Scope res_scope.
Delimit Scope res_scope with res.
Notation "x <- r ;; k" := (res_bind r (fun x => k))
  (at level 61, r at next level, right associativity) : res_scope.

(** ** State and exceptions

    [ST S A] is a computation over a mutable state [S] that returns an
    [A] or raises; the state reached before a raise is kept, as the
    effects of a Python statement are when it raises. *)

Definition ST (S A : Type) : Type := S -> res A * S.

Definition ret {S A : Type} (a : A) : ST S A := fun w => (Ok a, w).

Definition bind {S A B : Type} (m : ST S A) (k : A -> ST S B) : ST S B :=
  fun w =>
    match m w with
    | (Ok a, w') => k a w'
    | (Raise e, w') => (Raise e, w')
    end.

Definition lift {S A : Type} (r : res A) : ST S A := fun w => (r, w).

(** [try: body / except OSError: handler]. *)
Definition try_except_OSError {S A : Type} (body handler : ST S A) : ST S A :=
  fun w =>
    match body w with
    | (Raise OSError, w') => handler w'
    | out => out
    end.

(** [try: body / except Exception: handler]. *)
Definition try_except {S A : Type} (body handler : ST S A) : ST S A :=
  fun w =>
    match body w with
    | (Raise _, w') => handler w'
    | out => out
    end.

Declare Scope ST_scope.
Delimit Scope ST_scope with ST.
Notation "x <- m ;; k" := (bind m (fun x => k))
  (at level 61, m at next level, right associativity) : ST_scope.
Notation "m ;;; k" := (bind m (fun _ => k))
  (at level 61, right associativity) : ST_scope.

(** ** Python string methods used by the program

    Strings are sequences of 8-bit characters; the case and blank
    tests are the ASCII ones of MicroPython. *)

Module PyStr.

Definition CRLF : string :=
  String (ascii_of_nat 13) (String (ascii_of_nat 10) EmptyString).

(** Blank characters: space and the range TAB .. CR. *)
Definition is_space (c : ascii) : bool :=
  let n := nat_of_ascii c in
  orb (Nat.eqb n 32) (andb (Nat.leb 9 n) (Nat.leb n 13)).

Definition upper_ascii (c : ascii) : ascii :=
  let n := nat_of_ascii c in
  if andb (Nat.leb 97 n) (Nat.leb n 122) then ascii_of_nat (n - 32) else c.

Definition lower_ascii (c : ascii) : ascii :=
  let n := nat_of_ascii c in
  if andb (Nat.leb 65 n) (Nat.leb n 90) then ascii_of_nat (n + 32) else c.

Fixpoint upper (s : string) : string :=
  match s with
  | EmptyString => EmptyString
  | String c s' => String (upper_ascii c) (upper s')
  end.

Fixpoint lower (s : string) : string :=
  match s with
  | EmptyString => EmptyString
  | String c s' => String (lower_ascii c) (lower s')
  end.

Definition rev_string (s : string) : string :=
  string_of_list_ascii (rev (list_ascii_of_string s)).

Fixpoint lstrip (s : string) : string :=
  match s with
  | EmptyString => EmptyString
  | String c s' => if is_space c then lstrip s' else s
  end.

Definition rstrip (s : string) : string := rev_string (lstrip (rev_string s)).

Definition strip (s : string) : string := rstrip (lstrip s).

(** [s.split()]: the maximal runs of non-blank characters. *)
Fixpoint split_ws_from (cur : string) (s : string) : list string :=
  match s with
  | EmptyString =>
      match cur with EmptyString => [] | _ => [cur] end
  | String c s' =>
      if is_space c then
        match cur with
        | EmptyString => split_ws_from EmptyString s'
        | _ => cur :: split_ws_from EmptyString s'
        end
      else split_ws_from (cur ++ String c EmptyString) s'
  end.

Definition split_ws (s : string) : list string := split_ws_from EmptyString s.

(** [s.split(sep)] for a one-character separator. *)
Fixpoint split_on_from (sep : ascii) (cur : string) (s : string) : list string :=
  match s with
  | EmptyString => [cur]
  | String c s' =>
      if Ascii.eqb c sep then cur :: split_on_from sep EmptyString s'
      else split_on_from sep (cur ++ String c EmptyString) s'
  end.

Definition split_on (sep : ascii) (s : string) : list string :=
  split_on_from sep EmptyString s.

(** [s.split(sep, 1)[1]]: what follows the first [sep]; [None] stands
    for the [IndexError] raised when there is no [sep]. *)
Fixpoint after_first (sep : ascii) (s : string) : option string :=
  match s with
  | EmptyString => None
  | String c s' => if Ascii.eqb c sep then Some s' else after_first sep s'
  end.

Definition startswith (s pre : string) : bool := String.prefix pre s.

Definition endswith (s suf : string) : bool :=
  String.prefix (rev_string suf) (rev_string s).

(** [s[n:]]. *)
Fixpoint drop (n : nat) (s : string) : string :=
  match n, s with
  | O, _ => s
  | S _, EmptyString => EmptyString
  | S k, String _ s' => drop k s'
  end.

(** [str(n)] and [{}] formatting of an integer. *)
Definition str_of_int (n : Z) : string :=
  DecimalString.NilZero.string_of_int (Z.to_int n).

Definition digit_of (c : ascii) : option Z :=
  let n := nat_of_ascii c in
  if andb (Nat.leb 48 n) (Nat.leb n 57) then Some (Z.of_nat (n - 48)) else None.

Fixpoint digits_from (acc : Z) (s : string) : option Z :=
  match s with
  | EmptyString => Some acc
  | String c s' =>
      match digit_of c with
      | Some d => digits_from (acc * 10 + d)%Z s'
      | None => None
      end
  end.

(** [int(s)] on a non-empty run of decimal digits.  [int] accepts more
    (a sign, blanks, underscores); none of that occurs in the address
    the program is configured with, the only argument it is used on
    here, and such strings are answered like malformed ones. *)
Definition int_of_digits (s : string) : res Z :=
  match s with
  | EmptyString => Raise ValueError
  | _ => match digits_from 0%Z s with
         | Some n => Ok n
         | None => Raise ValueError
         end
  end.

(** [s.replace(old, new)] for a non-empty [old]: the occurrences of
    [old] are replaced from left to right, and the characters of a
    replaced occurrence are not looked at again ([skip] counts those
    still to pass over). *)
Fixpoint replace_from (old new : string) (skip : nat) (s : string) : string :=
  match s with
  | EmptyString => EmptyString
  | String c s' =>
      match skip with
      | S k => replace_from old new k s'
      | O =>
          if String.prefix old s
          then (new ++ replace_from old new (String.length old - 1) s')%string
          else String c (replace_from old new 0 s')
      end
  end.

Definition replace (s old new : string) : string := replace_from old new 0 s.

End PyStr.

(** ** reader.py: arithmetic primitives *)

Module Reader.

Definition Vector3 : Type := (R * R * R)%type.

(** Python's [x / y] on floats: [ZeroDivisionError] on a zero divisor. *)
Definition truediv (x y : R) : res R :=
  if Req_dec_T y 0 then Raise ZeroDivisionError else Ok (x / y).

(** [math.sqrt]: [ValueError] on a negative argument. *)
Definition math_sqrt (x : R) : res R :=
  if Rlt_dec x 0 then Raise ValueError else Ok (sqrt x).

(** [math.atan2 y x]: the angle of the point [(x, y)], in (-PI, PI];
    the origin is sent to 0.  The reals have one zero: the IEEE cases
    that turn on the sign of a zero ([atan2(+0.0, -0.0)] is pi,
    [atan2(-0.0, -1.0)] is -pi) are outside this model: with the zero
    vector as one argument, where the model gives the angle 0, the
    code can give -180. *)
Definition math_atan2 (y x : R) : R :=
  if Rlt_dec 0 x then atan (y / x)
  else if Rlt_dec x 0 then
    (if Rle_dec 0 y then atan (y / x) + PI else atan (y / x) - PI)
  else if Rlt_dec 0 y then PI / 2
  else if Rlt_dec y 0 then - (PI / 2)
  else 0.

(** [math.degrees x]. *)
Definition math_degrees (x : R) : R := x * (180 / PI).

(** ** Vector helpers

    Over the reals [_vec_norm] sends every non-zero vector to a vector
    of length exactly 1.  In floating point that holds up to rounding
    and only while [x*x + y*y + z*z] neither underflows nor overflows,
    as it does for every accelerometer sample (components are
    multiples of 1/16384 in [-2, 2)); statements about lengths are
    therefore made for samples. *)

Definition _vec_norm (v : Vector3) : res Vector3 :=
  let '(x, y, z) := v in
  (m <- math_sqrt (x * x + y * y + z * z) ;;
   if Req_dec_T m 0 then Ok (0, 0, 0)
   else
     xm <- truediv x m ;;
     ym <- truediv y m ;;
     zm <- truediv z m ;;
     Ok (xm, ym, zm))%res.

Definition _vec_dot (a b : Vector3) : R :=
  let '(a0, a1, a2) := a in
  let '(b0, b1, b2) := b in
  a0 * b0 + a1 * b1 + a2 * b2.

Definition _vec_cross (a b : Vector3) : Vector3 :=
  let '(a0, a1, a2) := a in
  let '(b0, b1, b2) := b in
  (a1 * b2 - a2 * b1,
   a2 * b0 - a0 * b2,
   a0 * b1 - a1 * b0).

Definition _signed_angle_about_axis (v0 v1 axis_unit : Vector3) : res R :=
  (v0u <- _vec_norm v0 ;;
   v1u <- _vec_norm v1 ;;
   let cross := _vec_cross v0u v1u in
   let s := _vec_dot axis_unit cross in
   let c := _vec_dot v0u v1u in
   let ang := math_degrees (math_atan2 s c) in
   Ok (if Req_dec_T ang 180 then -180 else ang))%res.

(** ** The device's surroundings

    The I2C bus and the clock are the only things [reader.py] touches
    outside its own objects.  Bus transactions are numbered in the order
    they are issued; [bus_fault n] tells whether the [n]-th one raises
    [OSError], and [accel_regs n] holds the six bytes a burst read of
    the accelerometer registers returns when it is the [n]-th one. *)

Definition burst : Type := (byte * byte * byte * byte * byte * byte)%type.

Record world : Type := mkWorld {
  bus_fault : nat -> bool;
  accel_regs : nat -> burst;
  bus_txn : nat;                       (* transactions issued so far *)
  bus_writes : list (Z * Z * list byte); (* (addr, register, payload), latest first *)
  slept : list Z                       (* [utime.sleep_ms] arguments, latest first *)
}.

Definition M (A : Type) : Type := ST world A.

Definition sleep_ms (ms : Z) : M unit :=
  fun w => (Ok tt, mkWorld (bus_fault w) (accel_regs w) (bus_txn w)
                           (bus_writes w) (ms :: slept w)).

(** [i2c.writeto_mem(addr, reg, payload)]. *)
Definition writeto_mem (addr reg : Z) (payload : list byte) : M unit :=
  fun w =>
    let n := bus_txn w in
    if bus_fault w n
    then (Raise OSError,
          mkWorld (bus_fault w) (accel_regs w) (S n) (bus_writes w) (slept w))
    else (Ok tt,
          mkWorld (bus_fault w) (accel_regs w) (S n)
                  ((addr, reg, payload) :: bus_writes w) (slept w)).

(** [i2c.readfrom_mem(addr, 0x3B, 6)]: the six accelerometer bytes. *)
Definition readfrom_mem_accel (addr : Z) : M burst :=
  fun w =>
    let n := bus_txn w in
    let w' := mkWorld (bus_fault w) (accel_regs w) (S n) (bus_writes w) (slept w) in
    if bus_fault w n then (Raise OSError, w') else (Ok (accel_regs w n), w').

(** ** Minimal MPU6050 driver *)

Record MPU6050 : Type := mkMPU { addr : Z }.

Definition _init_device (self : MPU6050) : M unit :=
  try_except_OSError
    (writeto_mem (addr self) 107 [x00] ;;;
     sleep_ms 100 ;;;
     writeto_mem (addr self) 28 [x00] ;;;
     sleep_ms 10)%ST
    (ret tt).

Definition MPU6050_init (a : Z) : M MPU6050 :=
  (let self := mkMPU a in
   _init_device self ;;;
   ret self)%ST.

(** One big-endian signed 16-bit integer, the ['h'] of [struct.unpack]. *)
Definition int16_be (hi lo : byte) : Z :=
  let u := (Z.of_N (Byte.to_N hi) * 256 + Z.of_N (Byte.to_N lo))%Z in
  if (u <? 32768)%Z then u else (u - 65536)%Z.

Definition unpack_hhh (data : burst) : Z * Z * Z :=
  let '(b0, b1, b2, b3, b4, b5) := data in
  (int16_be b0 b1, int16_be b2 b3, int16_be b4 b5).

Definition get_accel_data (self : MPU6050) : M Vector3 :=
  (data <- readfrom_mem_accel (addr self) ;;
   let '(ax, ay, az) := unpack_hhh data in
   let scale := 16384 in
   lift (x <- truediv (IZR ax) scale ;;
         y <- truediv (IZR ay) scale ;;
         z <- truediv (IZR az) scale ;;
         Ok (x, y, z))%res)%ST.

Fixpoint _safe_read {A : Type} (read_fn : M A) (retries : nat) (delay_ms : Z)
  : M (option A) :=
  match retries with
  | O => ret None
  | S k =>
      fun w =>
        match read_fn w with
        | (Ok a, w') => (Ok (Some a), w')
        | (Raise OSError, w') =>
            (sleep_ms delay_ms ;;; _safe_read read_fn k delay_ms)%ST w'
        | (Raise e, w') => (Raise e, w')
        end
  end.

(** Default arguments of [_safe_read]. *)
Definition default_retries : nat := 3.
Definition default_delay_ms : Z := 5.

(** ** Public API: AngleTracker

    Methods take the object and return it, updated, next to their
    result.  Every method assigns to [self] only after its last fallible
    step, so a raised exception leaves the object as it was. *)

Record AngleTracker : Type := mkTracker {
  mpu : MPU6050;
  calibration_delay_ms : Z;
  axis : Vector3;
  angle_mode : string;
  g_ref : Vector3;
  _last_delta : R
}.

(** [_set_axis], as the pair it assigns to [self.axis] and
    [self.angle_mode]. *)
Definition _set_axis (angle_mode : string) : res (Vector3 * string) :=
  let mode := PyStr.upper (if String.eqb angle_mode EmptyString then "PITCH" else angle_mode) in
  if String.eqb mode "ROLL" then
    (a <- _vec_norm (1, 0, 0) ;; Ok (a, "ROLL"%string))%res
  else
    (a <- _vec_norm (0, 1, 0) ;; Ok (a, "PITCH"%string))%res.

Definition AngleTracker_init (angle_mode : string) (mpu_addr : Z)
  (calibration_delay_ms : Z) : M AngleTracker :=
  (m <- MPU6050_init mpu_addr ;;
   am <- lift (_set_axis angle_mode) ;;
   ret (mkTracker m calibration_delay_ms (fst am) (snd am) (0, 0, 1) 0))%ST.

Definition recalibrate (self : AngleTracker) : M (bool * AngleTracker) :=
  (sleep_ms (calibration_delay_ms self) ;;;
   g <- _safe_read (get_accel_data (mpu self)) default_retries default_delay_ms ;;
   match g with
   | None => ret (false, self)
   | Some g =>
       u <- lift (_vec_norm g) ;;
       ret (true,
            mkTracker (mpu self) (calibration_delay_ms self) (axis self)
                      (angle_mode self) u 0)
   end)%ST.

Definition get_delta (self : AngleTracker) : M (option R * AngleTracker) :=
  (g_now <- _safe_read (get_accel_data (mpu self)) default_retries default_delay_ms ;;
   match g_now with
   | None => ret (None, self)
   | Some g_now =>
       d <- lift (_signed_angle_about_axis (g_ref self) g_now (axis self)) ;;
       ret (Some d,
            mkTracker (mpu self) (calibration_delay_ms self) (axis self)
                      (angle_mode self) (g_ref self) d)
   end)%ST.

Definition get_last_delta (self : AngleTracker) : R := _last_delta self.

Definition set_angle_mode (self : AngleTracker) (angle_mode : string)
  : res AngleTracker :=
  (am <- _set_axis angle_mode ;;
   Ok (mkTracker (mpu self) (calibration_delay_ms self) (fst am) (snd am)
                 (g_ref self) (_last_delta self)))%res.

(** ** Vocabulary of the statements about the tracker *)

(** [faults_from f start n]: the [n] transactions numbered from [start]
    all raise. *)
Fixpoint faults_from (f : nat -> bool) (start n : nat) : bool :=
  match n with
  | O => true
  | S k => andb (f start) (faults_from f (S start) k)
  end.

(** Every one of the next [retries] attempts to read the sensor fails. *)
Definition reads_all_fail (retries : nat) (w : world) : bool :=
  faults_from (bus_fault w) (bus_txn w) retries.

(** The retried sensor read, started in [w], succeeds with sample [r]
    and leaves the world [w']. *)
Definition sensor_reads (m : MPU6050) (w : world) (r : Vector3) (w' : world) : Prop :=
  _safe_read (get_accel_data m) default_retries default_delay_ms w = (Ok (Some r), w').

(** The world once one more bus transaction has been issued. *)
Definition after_txn (w : world) : world :=
  mkWorld (bus_fault w) (accel_regs w) (S (bus_txn w)) (bus_writes w) (slept w).

(** The acceleration sample six register bytes stand for. *)
Definition sample_of (data : burst) : Vector3 :=
  let '(ax, ay, az) := unpack_hhh data in
  (IZR ax / 16384, IZR ay / 16384, IZR az / 16384).

(** [self] with [_last_delta] replaced. *)
Definition with_last_delta (self : AngleTracker) (d : R) : AngleTracker :=
  mkTracker (mpu self) (calibration_delay_ms self) (axis self)
            (angle_mode self) (g_ref self) d.

(** [create_default_tracker]: the tracker of [AngleTracker(...)] on
    the bus it is given; building the [I2C] object touches no state of
    this model. *)
Definition create_default_tracker (angle_mode : string) (mpu_addr : Z)
  (calibration_delay_ms : Z) : M AngleTracker :=
  AngleTracker_init angle_mode mpu_addr calibration_delay_ms.

(** ** Vocabulary of the statements about vectors and tracker states *)

Definition scale (k : R) (v : Vector3) : Vector3 :=
  let '(x, y, z) := v in (k * x, k * y, k * z).

(** What a tracker is at every moment of its life: an axis that is the
    unit X or unit Y vector and named accordingly, a reference of
    length 1 or 0, a last delta in [-180, 180). *)
Definition tracker_ok (t : AngleTracker) : Prop :=
  (axis t = (1, 0, 0) /\ angle_mode t = "ROLL"%string \/
   axis t = (0, 1, 0) /\ angle_mode t = "PITCH"%string) /\
  (_vec_dot (g_ref t) (g_ref t) = 1 \/ g_ref t = (0, 0, 0)) /\
  -180 <= _last_delta t < 180.

(** How many of the transactions numbered from [start] fail before
    the first that succeeds, looking at [n] of them at most. *)
Fixpoint failures_before (f : nat -> bool) (start n : nat) : nat :=
  match n with
  | O => O
  | S k => if f start then S (failures_before f (S start) k) else O
  end.

End Reader.

(** ** main.py *)

Module Main.

Import Reader.

(** *** CONFIG *)

Definition SSID : string := "ESP32-Angle".
Definition AP_IP : string := "192.168.4.1".
Definition ANGLE_MODE : string := "PITCH".
Definition READ_PERIOD_MS : Z := 100.

(** *** Angle tracker: the module-level start-up statements

    [tracker = AngleTracker(i2c, angle_mode=ANGLE_MODE,
    calibration_delay_ms=1500)] followed by [tracker.recalibrate()];
    the two [print] branches differ in their message only.  The result
    is the calibration outcome and the tracker the servers then use. *)
Definition startup : M (bool * AngleTracker) :=
  (tracker <- AngleTracker_init ANGLE_MODE 104 1500 ;;
   recalibrate tracker)%ST.

(** *** Minimal DNS catch-all *)

(** A peer address as [recvfrom] reports it. *)
Definition peer : Type := (string * Z)%type.

(** What one [s.recvfrom(512)] call on the non-blocking socket meets:
    nothing pending ([OSError]), or a datagram, already cut to the
    buffer size, and its sender. *)
Inductive recv_event : Type :=
| WouldBlock
| Datagram (data : list byte) (cli : peer).

Record net : Type := mkNet {
  inbox : list recv_event;                 (* outcomes of the coming recvfrom calls *)
  send_fault : nat -> bool;                (* does the n-th sendto raise OSError *)
  sendto_calls : list (list byte * peer);  (* arguments of every sendto, latest first *)
  naps : list Z                            (* asyncio.sleep_ms arguments, latest first *)
}.

Definition recvfrom : ST net (list byte * peer) :=
  fun n =>
    match inbox n with
    | [] => (Raise OSError, n)
    | WouldBlock :: rest =>
        (Raise OSError, mkNet rest (send_fault n) (sendto_calls n) (naps n))
    | Datagram data cli :: rest =>
        (Ok (data, cli), mkNet rest (send_fault n) (sendto_calls n) (naps n))
    end.

Definition sendto (packet : list byte) (cli : peer) : ST net unit :=
  fun n =>
    let k := List.length (sendto_calls n) in
    let n' := mkNet (inbox n) (send_fault n) ((packet, cli) :: sendto_calls n) (naps n) in
    if send_fault n k then (Raise OSError, n') else (Ok tt, n').

Definition nap (ms : Z) : ST net unit :=
  fun n => (Ok tt, mkNet (inbox n) (send_fault n) (sendto_calls n) (ms :: naps n)).

(** [data[i:j]] for [0 <= i <= j]. *)
Definition slice {A : Type} (i j : nat) (data : list A) : list A :=
  firstn (j - i) (skipn i data).

Definition byte_of_Z (n : Z) : byte :=
  match Byte.of_N (Z.to_N n) with
  | Some b => b
  | None => x00
  end.

(** [bytes(int(x) & 0xFF for x in ip.split("."))]. *)
Fixpoint bytes_of_groups (groups : list string) : res (list byte) :=
  match groups with
  | [] => Ok []
  | x :: rest =>
      (n <- PyStr.int_of_digits x ;;
       bs <- bytes_of_groups rest ;;
       Ok (byte_of_Z (Z.land n 255) :: bs))%res
  end.

Definition ip_bytes_of (ip : string) : res (list byte) :=
  bytes_of_groups (PyStr.split_on "."%char ip).

(** The packet handed to [sendto]: [header + question + answer]. *)
Definition dns_response (ip_bytes data : list byte) : list byte :=
  let tid := slice 0 2 data in
  let flags := [x81; x80] in
  let qdcount := slice 4 6 data in
  let ancount := [x00; x01] in
  let nscount := [x00; x00] in
  let arcount := [x00; x00] in
  let header := tid ++ flags ++ qdcount ++ ancount ++ nscount ++ arcount in
  let question := skipn 12 data in
  let answer := [xc0; x0c] ++ [x00; x01] ++ [x00; x01]
                ++ [x00; x00; x00; x3c] ++ [x00; x04] ++ ip_bytes in
  header ++ question ++ answer.

(** One turn of the [while True] loop. *)
Definition dns_turn (ip_bytes : list byte) : ST net unit :=
  try_except_OSError
    (dc <- recvfrom ;;
     let '(data, cli) := dc in
     if orb (match data with [] => true | _ => false end)
            (Nat.ltb (List.length data) 12)
     then nap 1
     else sendto (dns_response ip_bytes data) cli)%ST
    (nap 2).

Fixpoint turns {S : Type} (n : nat) (body : ST S unit) : ST S unit :=
  match n with
  | O => ret tt
  | S k => (body ;;; turns k body)%ST
  end.

(** [dns_catch_all(ip)], its endless loop cut after [rounds] turns. *)
Definition dns_catch_all (ip : string) (rounds : nat) : ST net unit :=
  (ip_bytes <- lift (ip_bytes_of ip) ;;
   turns rounds (dns_turn ip_bytes))%ST.

(** *** HTTP server *)

(** What one read call on the connection's stream meets. *)
Inductive rd_event : Type :=
| RdBytes (b : string)
| RdError.

Record conn : Type := mkConn {
  rd_pending : list rd_event;   (* outcomes of the coming read calls; none left: end of stream *)
  wr_fault : nat -> bool;       (* does the n-th awrite raise OSError *)
  wr_calls : nat;               (* awrite calls so far *)
  wr_chunks : list string;      (* what was written, in order *)
  closes : nat                  (* aclose calls so far *)
}.

(** A connection being served, with the module-level [tracker] and the
    device around it. *)
Record server : Type := mkServer {
  sv_conn : conn;
  sv_tracker : AngleTracker;
  sv_world : world
}.

Definition on_conn {A : Type} (m : ST conn A) : ST server A :=
  fun st =>
    let '(r, c') := m (sv_conn st) in
    (r, mkServer c' (sv_tracker st) (sv_world st)).

(** A method call on [tracker]. *)
Definition on_tracker {A : Type} (m : AngleTracker -> M (A * AngleTracker))
  : ST server A :=
  fun st =>
    match m (sv_tracker st) (sv_world st) with
    | (Ok (a, t'), w') => (Ok a, mkServer (sv_conn st) t' w')
    | (Raise e, w') => (Raise e, mkServer (sv_conn st) (sv_tracker st) w')
    end.

Definition readline : ST conn string :=
  fun c =>
    match rd_pending c with
    | [] => (Ok EmptyString, c)
    | RdBytes b :: rest =>
        (Ok b, mkConn rest (wr_fault c) (wr_calls c) (wr_chunks c) (closes c))
    | RdError :: rest =>
        (Raise OSError, mkConn rest (wr_fault c) (wr_calls c) (wr_chunks c) (closes c))
    end.

(** [reader.readexactly(n)]; the caller drops its result. *)
Definition readexactly (n : Z) : ST conn unit :=
  (_ <- readline ;; ret tt)%ST.

Definition awrite (chunk : string) : ST conn unit :=
  fun c =>
    let k := wr_calls c in
    if wr_fault c k
    then (Raise OSError,
          mkConn (rd_pending c) (wr_fault c) (S k) (wr_chunks c) (closes c))
    else (Ok tt,
          mkConn (rd_pending c) (wr_fault c) (S k) (wr_chunks c ++ [chunk]) (closes c)).

Definition aclose : ST conn unit :=
  fun c =>
    (Ok tt, mkConn (rd_pending c) (wr_fault c) (wr_calls c) (wr_chunks c) (S (closes c))).

(** [{200: ..., 204: ..., 404: ..., 500: ...}.get(status, "OK")]. *)
Definition reason_of (status : Z) : string :=
  if (status =? 200)%Z then "OK"
  else if (status =? 204)%Z then "No Content"
  else if (status =? 404)%Z then "Not Found"
  else if (status =? 500)%Z then "Internal Server Error"
  else "OK".

Definition response_header (status : Z) (ctype body : string) : string :=
  ("HTTP/1.1 " ++ PyStr.str_of_int status ++ " " ++ reason_of status ++ PyStr.CRLF
   ++ "Content-Type: " ++ ctype ++ PyStr.CRLF
   ++ "Content-Length: " ++ PyStr.str_of_int (Z.of_nat (String.length body)) ++ PyStr.CRLF
   ++ "Cache-Control: no-store" ++ PyStr.CRLF
   ++ "Connection: close" ++ PyStr.CRLF ++ PyStr.CRLF)%string.

Definition send_response (status : Z) (ctype body : string) : ST conn unit :=
  (let hdr := response_header status ctype body in
   awrite hdr ;;;
   if andb (negb (String.eqb body EmptyString)) (negb (status =? 204)%Z)
   then awrite body
   else ret tt)%ST.

Definition text_plain : string := "text/plain; charset=utf-8".
Definition text_html : string := "text/html; charset=utf-8".

Definition str_in (s : string) (choices : list string) : bool :=
  existsb (String.eqb s) choices.

(** A big-endian unsigned integer, as the DNS wire format stores its
    counts, types and lifetimes. *)
Definition be_uint (bs : list byte) : Z :=
  fold_left (fun acc b => (acc * 256 + Z.of_N (Byte.to_N b))%Z) bs 0%Z.

Section Http.

(** Supplied by the runtime and the file system, not by [main.py]:
    [bytes.decode], [int] on a header value, the [+.2f] rendering of an
    angle, and the page [load_index_html()] returns. *)
Variable decode : string -> res string.
Variable py_int : string -> res Z.
Variable format_angle : R -> string.
Variable index_page : string.

(** The header loop: [content_length] and [host_hdr] after it, and the
    reads left. *)
Fixpoint read_headers (pending : list rd_event) (content_length : Z)
  (host_hdr : string) : res (Z * string) * list rd_event :=
  match pending with
  | [] => (Ok (content_length, host_hdr), [])
  | RdError :: rest => (Raise OSError, rest)
  | RdBytes h :: rest =>
      if orb (String.eqb h EmptyString) (String.eqb h PyStr.CRLF)
      then (Ok (content_length, host_hdr), rest)
      else
        match decode h with
        | Raise e => (Raise e, rest)
        | Ok t =>
            let hl := PyStr.strip t in
            let content_length :=
              if PyStr.startswith (PyStr.lower hl) "content-length:" then
                match PyStr.after_first ":"%char hl with
                | Some v =>
                    match py_int (PyStr.strip v) with
                    | Ok n => n
                    | Raise _ => 0%Z
                    end
                | None => 0%Z
                end
              else content_length in
            let host_hdr :=
              if PyStr.startswith (PyStr.lower hl) "host:"
              then PyStr.strip (PyStr.drop 5 hl)
              else host_hdr in
            read_headers rest content_length host_hdr
        end
  end.

Definition headers : ST conn (Z * string) :=
  fun c =>
    let '(r, rest) := read_headers (rd_pending c) 0%Z EmptyString in
    (r, mkConn rest (wr_fault c) (wr_calls c) (wr_chunks c) (closes c)).

(** The [if / elif] chain of [handle_client]. *)
Definition dispatch (method path : string) : ST server unit :=
  if andb (String.eqb method "GET") (str_in path ["/generate_204"; "/gen_204"]%string)
  then on_conn (send_response 204 text_plain EmptyString)
  else if andb (String.eqb method "GET")
               (str_in path ["/hotspot-detect.html"; "/library/test/success.html"]%string)
  then on_conn (send_response 200 text_html "Success")
  else if andb (String.eqb method "GET")
               (str_in path ["/connecttest.txt"; "/ncsi.txt"]%string)
  then
    let txt := if PyStr.endswith path "connecttest.txt"
               then "Microsoft Connect Test"%string
               else "Microsoft NCSI"%string in
    on_conn (send_response 200 text_plain txt)
  else if andb (String.eqb method "GET")
               (orb (String.eqb path "/") (PyStr.startswith path "/index.html"))
  then on_conn (send_response 200 text_html index_page)
  else if andb (String.eqb method "GET") (String.eqb path "/angle")
  then
    (d <- on_tracker get_delta ;;
     let body := match d with
                 | None => "--.--"%string
                 | Some d => format_angle d
                 end in
     on_conn (send_response 200 text_plain body))%ST
  else if andb (String.eqb path "/recalibrate") (str_in method ["POST"; "GET"]%string)
  then
    (ok <- on_tracker recalibrate ;;
     on_conn (send_response 200 text_plain
                (if ok : bool then "OK"%string else "ERR"%string)))%ST
  else on_conn (send_response 404 text_plain "Not found").

(** The [try] block of [handle_client]. *)
Definition serve : ST server unit :=
  (req <- on_conn readline ;;
   if String.eqb req EmptyString then on_conn aclose
   else
     line <- try_except (lift (decode req)) (ret EmptyString) ;;
     let parts := PyStr.split_ws line in
     let method := match parts with m :: _ => m | [] => EmptyString end in
     let path := match parts with _ :: p :: _ => p | _ => "/"%string end in
     ch <- on_conn headers ;;
     let content_length := fst ch in
     (if (content_length =? 0)%Z then ret tt
      else try_except (on_conn (readexactly content_length)) (ret tt)) ;;;
     dispatch method path)%ST.

(** [try: ... except Exception: (try: 500 except: pass) finally:
    (try: aclose except: pass)]. *)
Definition handle_client : ST server unit :=
  (try_except serve
     (try_except (on_conn (send_response 500 text_plain "Server error")) (ret tt)) ;;;
   try_except (on_conn aclose) (ret tt))%ST.

End Http.

(** *** HTML loader

    The module-level cache [_INDEX_HTML] is threaded as state; [file]
    is what [open("index.html").read()] gives at the time of the call,
    [None] when it raises. *)
Definition load_index_html (file : option string) : ST (option string) string :=
  fun _INDEX_HTML =>
    let html :=
      match _INDEX_HTML with
      | None =>
          match file with
          | Some text => text
          | None => "<h1>index.html missing</h1>"%string
          end
      | Some html => html
      end in
    (Ok (PyStr.replace (PyStr.replace html "{{MODE}}" ANGLE_MODE) "{{SSID}}" SSID),
     Some html).

(** *** Background sampler *)

Record sampler : Type := mkSampler {
  sm_tracker : AngleTracker;
  sm_world : world;
  sm_naps : list Z        (* asyncio.sleep_ms arguments, latest first *)
}.

(** One turn of [periodic_read]: [tracker.get_delta()], result dropped,
    then [asyncio.sleep_ms(READ_PERIOD_MS)]. *)
Definition periodic_turn : ST sampler unit :=
  fun s =>
    match get_delta (sm_tracker s) (sm_world s) with
    | (Ok (_, t'), w') => (Ok tt, mkSampler t' w' (READ_PERIOD_MS :: sm_naps s))
    | (Raise e, w') => (Raise e, mkSampler (sm_tracker s) w' (sm_naps s))
    end.

(** [periodic_read()], its endless loop cut after [rounds] turns. *)
Definition periodic_read (rounds : nat) : ST sampler unit :=
  turns rounds periodic_turn.

(** *** Vocabulary of the statements about the DNS loop *)

(** The [sendto] calls a run over [events] makes, latest first. *)
Fixpoint answers (ip_bytes : list byte) (events : list recv_event)
  (sent : list (list byte * peer)) : list (list byte * peer) :=
  match events with
  | [] => sent
  | WouldBlock :: rest => answers ip_bytes rest sent
  | Datagram data cli :: rest =>
      if Nat.ltb (List.length data) 12
      then answers ip_bytes rest sent
      else answers ip_bytes rest ((dns_response ip_bytes data, cli) :: sent)
  end.

(** *** Vocabulary of the statements about the HTTP engine *)

(** From [c] to [c']: output was only appended, calls only counted up,
    the write faults to come are the same. *)
Definition conn_grows (c c' : conn) : Prop :=
  wr_fault c' = wr_fault c /\
  (wr_calls c <= wr_calls c')%nat /\
  (closes c <= closes c')%nat /\
  exists l, wr_chunks c' = wr_chunks c ++ l.

(** [m] only ever makes the connection it finds at [proj] grow. *)
Definition grows {S A : Type} (proj : S -> conn) (m : ST S A) : Prop :=
  forall s, conn_grows (proj s) (proj (snd (m s))).

End Main.

(** ** Sample surroundings, used to exercise the statements below *)

Module Sample.

Import Reader.

(** A bus on which every transaction fails. *)
Definition dead_world : world :=
  mkWorld (fun _ => true) (fun _ => (x00, x00, x00, x00, x00, x00)) 0 [] [].

(** A healthy bus and a device at rest, Z axis up: 0x4000 is 1 g. *)
Definition still_world : world :=
  mkWorld (fun _ => false) (fun _ => (x00, x00, x00, x00, x40, x00)) 0 [] [].

Definition tracker0 : AngleTracker :=
  mkTracker (mkMPU 104) 1500 (0, 1, 0) "PITCH" (0, 0, 1) 0.

(** A query with transaction id 0x1234 and one question: the name
    [a], type A, class IN. *)
Definition query : list byte :=
  [x12; x34; x01; x00; x00; x01; x00; x00; x00; x00; x00; x00;
   x01; x61; x00; x00; x01; x00; x01].

Definition asker : Main.peer := ("192.168.4.2"%string, 40000%Z).

(** A socket with [query] pending and nothing sent yet. *)
Definition net_with_query : Main.net :=
  Main.mkNet [Main.Datagram query asker] (fun _ => false) [] [].

(** A socket with a five-byte datagram pending. *)
Definition net_with_runt : Main.net :=
  Main.mkNet [Main.Datagram [x12; x34; x01; x00; x00] asker] (fun _ => false) [] [].

(** A socket that meets a runt, a would-block turn and then [query]. *)
Definition net_mixed : Main.net :=
  Main.mkNet [Main.Datagram [x12; x34; x01; x00; x00] asker; Main.WouldBlock;
              Main.Datagram query asker]
             (fun _ => false) [] [].

(** The runtime pieces of the HTTP engine, for requests in ASCII. *)
Definition decode_ascii (b : string) : res string := Ok b.
Definition format_fixed (d : R) : string := "+0.00".
Definition page : string := "<h1>index.html missing</h1>".

(** [GET /generate_204] with a Host header, on a healthy connection. *)
Definition probe_conn : Main.conn :=
  Main.mkConn
    [Main.RdBytes ("GET /generate_204 HTTP/1.1" ++ PyStr.CRLF);
     Main.RdBytes ("Host: connectivitycheck.gstatic.com" ++ PyStr.CRLF);
     Main.RdBytes PyStr.CRLF]
    (fun _ => false) 0 [] 0.

Definition probe_server : Main.server :=
  Main.mkServer probe_conn tracker0 still_world.

(** A decoder that rejects every byte above 127. *)
Fixpoint seven_bit (b : string) : bool :=
  match b with
  | EmptyString => true
  | String c b' => andb (Nat.ltb (nat_of_ascii c) 128) (seven_bit b')
  end.

Definition decode_7bit (b : string) : res string :=
  if seven_bit b then Ok b else Raise UnicodeError.

Definition conn_of (pending : list Main.rd_event) : Main.conn :=
  Main.mkConn pending (fun _ => false) 0 [] 0.

(** A peer that closed at once; a stream that fails; a request line
    of bytes that are no text; a HEAD request. *)
Definition closed_server : Main.server :=
  Main.mkServer (conn_of []) tracker0 still_world.

Definition broken_server : Main.server :=
  Main.mkServer (conn_of [Main.RdError]) tracker0 still_world.

Definition garbled_server : Main.server :=
  Main.mkServer
    (conn_of [Main.RdBytes (String (ascii_of_nat 255) (String (ascii_of_nat 254) PyStr.CRLF));
              Main.RdBytes PyStr.CRLF])
    tracker0 still_world.

Definition head_server : Main.server :=
  Main.mkServer (conn_of []) tracker0 still_world.

Definition dead_sensor_server : Main.server :=
  Main.mkServer (conn_of []) tracker0 dead_world.

Definition sampler0 : Main.sampler := Main.mkSampler tracker0 dead_world [].

(** A tracker calibrated along X and holding a stale 45 degrees,
    about to meet the device at rest (Z up). *)
Definition tilted_tracker : AngleTracker :=
  mkTracker (mkMPU 104) 1500 (0, 1, 0) "PITCH" (1, 0, 0) 45.

(** Register bursts for 1 g along X and 1 g along Z. *)
Definition burst_x : burst := (x40, x00, x00, x00, x00, x00).
Definition burst_z : burst := (x00, x00, x00, x00, x40, x00).

(** The Android probe followed by a header line that is no text. *)
Definition bad_header_server : Main.server :=
  Main.mkServer
    (conn_of [Main.RdBytes ("GET /generate_204 HTTP/1.1" ++ PyStr.CRLF);
              Main.RdBytes (String (ascii_of_nat 255) PyStr.CRLF);
              Main.RdBytes PyStr.CRLF])
    tracker0 still_world.

End Sample.

(** * Properties *)

Import Reader.

(** ** Arithmetic primitives *)

Lemma truediv_nonzero (x y : R) : y <> 0 -> truediv x y = Ok (x / y).
Proof.
  intros Hy. unfold truediv.
  destruct (Req_dec_T y 0) as [E | _]; [contradiction | reflexivity].
Qed.

Lemma sum_squares_nonneg (x y z : R) : 0 <= x * x + y * y + z * z.
Proof. nra. Qed.

Lemma math_sqrt_nonneg (x : R) : 0 <= x -> math_sqrt x = Ok (sqrt x).
Proof.
  intros Hx. unfold math_sqrt.
  destruct (Rlt_dec x 0) as [Hlt | _]; [lra | reflexivity].
Qed.

(** [_vec_norm] in closed form: it never raises. *)
Lemma vec_norm_eq (x y z : R) :
  _vec_norm (x, y, z) =
  Ok (if Req_dec_T (sqrt (x * x + y * y + z * z)) 0 then (0, 0, 0)
      else (x / sqrt (x * x + y * y + z * z),
            y / sqrt (x * x + y * y + z * z),
            z / sqrt (x * x + y * y + z * z))).
Proof.
  unfold _vec_norm.
  rewrite (math_sqrt_nonneg _ (sum_squares_nonneg x y z)). simpl.
  destruct (Req_dec_T (sqrt (x * x + y * y + z * z)) 0) as [E | NE].
  - reflexivity.
  - rewrite !(truediv_nonzero _ _ NE). reflexivity.
Qed.

Lemma vec_norm_total (v : Vector3) : exists u, _vec_norm v = Ok u.
Proof.
  destruct v as [[x y] z]. rewrite vec_norm_eq. eauto.
Qed.

Lemma vec_norm_of_unit (x y z : R) :
  x * x + y * y + z * z = 1 -> _vec_norm (x, y, z) = Ok (x, y, z).
Proof.
  intros H. rewrite vec_norm_eq, H, sqrt_1.
  destruct (Req_dec_T 1 0) as [E | _]; [lra |].
  do 2 f_equal; [f_equal |]; field.
Qed.

(** A normalised vector is a non-negative multiple of its argument. *)
Lemma vec_norm_scaled (x y z : R) :
  exists k, 0 <= k /\ _vec_norm (x, y, z) = Ok (k * x, k * y, k * z).
Proof.
  rewrite vec_norm_eq.
  destruct (Req_dec_T (sqrt (x * x + y * y + z * z)) 0) as [E | NE].
  - exists 0. split; [lra |]. do 2 f_equal; [f_equal |]; ring.
  - exists (/ sqrt (x * x + y * y + z * z)). split.
    + left. apply Rinv_0_lt_compat.
      pose proof (sqrt_pos (x * x + y * y + z * z)). lra.
    + do 2 f_equal; [f_equal |]; unfold Rdiv; ring.
Qed.

(** ** [math.atan2] and [math.degrees] *)

Lemma atan2_range (y x : R) : - PI < math_atan2 y x <= PI.
Proof.
  pose proof PI_RGT_0 as HPI.
  unfold math_atan2.
  destruct (Rlt_dec 0 x) as [Hx | Hx].
  - pose proof (atan_bound (y / x)). lra.
  - destruct (Rlt_dec x 0) as [Hx' | Hx'].
    + pose proof (atan_bound (y / x)) as Hb.
      pose proof (Rinv_neg x Hx') as Hi.
      destruct (Rle_dec 0 y) as [Hy | Hy].
      * assert (Hq : y / x <= 0) by (unfold Rdiv; nra).
        assert (Ha : atan (y / x) <= 0).
        { destruct Hq as [Hq | Hq].
          - left. rewrite <- atan_0. now apply atan_increasing.
          - rewrite Hq, atan_0. lra. }
        lra.
      * assert (Hq : 0 < y / x) by (unfold Rdiv; nra).
        assert (Ha : 0 < atan (y / x)).
        { rewrite <- atan_0. now apply atan_increasing. }
        lra.
    + destruct (Rlt_dec 0 y); [lra |].
      destruct (Rlt_dec y 0); lra.
Qed.

Lemma degrees_PI : math_degrees PI = 180.
Proof.
  unfold math_degrees. pose proof PI_RGT_0. field. lra.
Qed.

Lemma degrees_range (t : R) :
  - PI < t <= PI -> -180 < math_degrees t <= 180.
Proof.
  intros [Hlo Hhi]. pose proof PI_RGT_0 as HPI.
  unfold math_degrees.
  assert (Hk : 0 < 180 / PI) by (apply Rdiv_lt_0_compat; lra).
  assert (HkPI : PI * (180 / PI) = 180) by (field; lra).
  split; nra.
Qed.

Lemma atan2_half_turn (y x : R) : y = 0 -> x < 0 -> math_atan2 y x = PI.
Proof.
  intros -> Hx. unfold math_atan2.
  destruct (Rlt_dec 0 x); [lra |].
  destruct (Rlt_dec x 0); [| lra].
  destruct (Rle_dec 0 0); [| lra].
  unfold Rdiv. rewrite Rmult_0_l, atan_0. ring.
Qed.

Lemma atan2_half_turn_only (y x : R) : math_atan2 y x = PI -> y = 0 /\ x < 0.
Proof.
  pose proof PI_RGT_0 as HPI.
  unfold math_atan2.
  destruct (Rlt_dec 0 x) as [Hx | Hx].
  - pose proof (atan_bound (y / x)). lra.
  - destruct (Rlt_dec x 0) as [Hx' | Hx'].
    + pose proof (atan_bound (y / x)) as Hb.
      destruct (Rle_dec 0 y) as [Hy | Hy]; [| lra].
      intros H. split; [| assumption].
      destruct Hy as [Hy | Hy]; [| now symmetry].
      exfalso.
      pose proof (Rinv_neg x Hx') as Hi.
      assert (Hq : y / x < 0) by (unfold Rdiv; nra).
      apply atan_increasing in Hq. rewrite atan_0 in Hq. lra.
    + destruct (Rlt_dec 0 y); [lra |].
      destruct (Rlt_dec y 0); lra.
Qed.

Lemma atan2_on_positive_axis (x : R) : 0 <= x -> math_atan2 0 x = 0.
Proof.
  intros Hx. unfold math_atan2.
  destruct (Rlt_dec 0 x).
  - unfold Rdiv. rewrite Rmult_0_l. apply atan_0.
  - destruct (Rlt_dec x 0); [lra |].
    destruct (Rlt_dec 0 0); [lra |].
    destruct (Rlt_dec 0 0); [lra | reflexivity].
Qed.

(** Swapping the sign of the sine swaps the sign of the angle, except
    on the negative real axis, where both angles are [PI]. *)
Lemma atan2_opp (y x : R) :
  ~ (y = 0 /\ x < 0) -> math_atan2 (- y) x = - math_atan2 y x.
Proof.
  intros Hne. unfold math_atan2.
  replace (- y / x) with (- (y / x)) by (unfold Rdiv; ring).
  rewrite atan_opp.
  destruct (Rlt_dec 0 x) as [Hx | Hx]; [reflexivity |].
  destruct (Rlt_dec x 0) as [Hx' | Hx'].
  - destruct (Rle_dec 0 y) as [Hy | Hy]; destruct (Rle_dec 0 (- y)) as [Hy' | Hy'];
      lra.
  - destruct (Rlt_dec 0 y); destruct (Rlt_dec 0 (- y));
      destruct (Rlt_dec y 0); destruct (Rlt_dec (- y) 0); lra.
Qed.

Lemma degrees_opp (t : R) : math_degrees (- t) = - math_degrees t.
Proof. unfold math_degrees. ring. Qed.

Lemma degrees_half_turn_only (t : R) : math_degrees t = 180 -> t = PI.
Proof.
  pose proof PI_RGT_0 as HPI. unfold math_degrees. intros H.
  assert (E : t = t * (180 / PI) * (PI / 180)) by (field; lra).
  rewrite E, H. field.
Qed.

(** ** The signed angle *)

(** [_signed_angle_about_axis] once both normalisations are known. *)
Lemma signed_angle_eq (v0 v1 ax u0 u1 : Vector3) :
  _vec_norm v0 = Ok u0 -> _vec_norm v1 = Ok u1 ->
  _signed_angle_about_axis v0 v1 ax =
  Ok (if Req_dec_T
           (math_degrees (math_atan2 (_vec_dot ax (_vec_cross u0 u1)) (_vec_dot u0 u1)))
           180
      then -180
      else math_degrees (math_atan2 (_vec_dot ax (_vec_cross u0 u1)) (_vec_dot u0 u1))).
Proof.
  intros H0 H1. unfold _signed_angle_about_axis. rewrite H0, H1. reflexivity.
Qed.

Lemma signed_angle_total (v0 v1 ax : Vector3) :
  exists d, _signed_angle_about_axis v0 v1 ax = Ok d /\ -180 <= d < 180.
Proof.
  destruct (vec_norm_total v0) as [u0 H0].
  destruct (vec_norm_total v1) as [u1 H1].
  rewrite (signed_angle_eq _ _ ax _ _ H0 H1).
  eexists. split; [reflexivity |].
  pose proof (degrees_range _
    (atan2_range (_vec_dot ax (_vec_cross u0 u1)) (_vec_dot u0 u1))) as Hr.
  destruct (Req_dec_T _ 180) as [E | NE]; lra.
Qed.

Lemma dot_cross_swap (ax u0 u1 : Vector3) :
  _vec_dot ax (_vec_cross u1 u0) = - _vec_dot ax (_vec_cross u0 u1).
Proof.
  destruct ax as [[a0 a1] a2], u0 as [[x0 y0] z0], u1 as [[x1 y1] z1].
  simpl. ring.
Qed.

Lemma dot_comm (u0 u1 : Vector3) : _vec_dot u1 u0 = _vec_dot u0 u1.
Proof.
  destruct u0 as [[x0 y0] z0], u1 as [[x1 y1] z1]. simpl. ring.
Qed.

(** The two opposite unit vectors along X, seen about the Y axis. *)
Lemma signed_angle_opposite_x :
  _signed_angle_about_axis (1, 0, 0) (-1, 0, 0) (0, 1, 0) = Ok (-180).
Proof.
  rewrite (signed_angle_eq _ _ _ (1, 0, 0) (-1, 0, 0))
    by (apply vec_norm_of_unit; ring).
  rewrite atan2_half_turn by (simpl; lra).
  rewrite degrees_PI.
  destruct (Req_dec_T 180 180) as [_ | NE]; [reflexivity | contradiction].
Qed.

Lemma signed_angle_opposite_x_swapped :
  _signed_angle_about_axis (-1, 0, 0) (1, 0, 0) (0, 1, 0) = Ok (-180).
Proof.
  rewrite (signed_angle_eq _ _ _ (-1, 0, 0) (1, 0, 0))
    by (apply vec_norm_of_unit; ring).
  rewrite atan2_half_turn by (simpl; lra).
  rewrite degrees_PI.
  destruct (Req_dec_T 180 180) as [_ | NE]; [reflexivity | contradiction].
Qed.

Lemma degrees_0 : math_degrees 0 = 0.
Proof. unfold math_degrees. ring. Qed.

(** Measured against its own normalisation, a sample is at angle 0. *)
Lemma signed_angle_from_own_direction (r u ax : Vector3) :
  _vec_norm r = Ok u -> _signed_angle_about_axis u r ax = Ok 0.
Proof.
  intros Hr. destruct u as [[ux uy] uz].
  destruct (vec_norm_scaled ux uy uz) as (k & Hk & Hu).
  rewrite (signed_angle_eq _ _ ax _ _ Hu Hr).
  destruct ax as [[a0 a1] a2].
  assert (Hs : _vec_dot (a0, a1, a2)
                 (_vec_cross (k * ux, k * uy, k * uz) (ux, uy, uz)) = 0)
    by (simpl; ring).
  assert (Hc : 0 <= _vec_dot (k * ux, k * uy, k * uz) (ux, uy, uz)).
  { simpl. pose proof (sum_squares_nonneg ux uy uz).
    replace (k * ux * ux + k * uy * uy + k * uz * uz)
      with (k * (ux * ux + uy * uy + uz * uz)) by ring.
    now apply Rmult_le_pos. }
  rewrite Hs, (atan2_on_positive_axis _ Hc), degrees_0.
  destruct (Req_dec_T 0 180); [lra | reflexivity].
Qed.

(** A quarter turn, in both directions: X to Z about Y and back. *)
Lemma atan2_on_vertical_axis (y : R) :
  y <> 0 -> math_atan2 y 0 = if Rlt_dec 0 y then PI / 2 else - (PI / 2).
Proof.
  intros Hy. unfold math_atan2.
  destruct (Rlt_dec 0 0); [lra |].
  destruct (Rlt_dec 0 y); [reflexivity |].
  destruct (Rlt_dec y 0); [reflexivity | lra].
Qed.

Lemma signed_angle_x_to_z :
  _signed_angle_about_axis (1, 0, 0) (0, 0, 1) (0, 1, 0) = Ok (-90).
Proof.
  rewrite (signed_angle_eq _ _ _ (1, 0, 0) (0, 0, 1))
    by (apply vec_norm_of_unit; ring).
  replace (_vec_dot (0, 1, 0) (_vec_cross (1, 0, 0) (0, 0, 1))) with (-1)
    by (simpl; ring).
  replace (_vec_dot (1, 0, 0) (0, 0, 1)) with 0 by (simpl; ring).
  rewrite atan2_on_vertical_axis by lra.
  destruct (Rlt_dec 0 (-1)); [lra |].
  assert (E : math_degrees (- (PI / 2)) = -90).
  { unfold math_degrees. pose proof PI_RGT_0. field. lra. }
  rewrite E. destruct (Req_dec_T (-90) 180); [lra | reflexivity].
Qed.

Lemma signed_angle_z_to_x :
  _signed_angle_about_axis (0, 0, 1) (1, 0, 0) (0, 1, 0) = Ok 90.
Proof.
  rewrite (signed_angle_eq _ _ _ (0, 0, 1) (1, 0, 0))
    by (apply vec_norm_of_unit; ring).
  replace (_vec_dot (0, 1, 0) (_vec_cross (0, 0, 1) (1, 0, 0))) with 1
    by (simpl; ring).
  replace (_vec_dot (0, 0, 1) (1, 0, 0)) with 0 by (simpl; ring).
  rewrite atan2_on_vertical_axis by lra.
  destruct (Rlt_dec 0 1); [| lra].
  assert (E : math_degrees (PI / 2) = 90).
  { unfold math_degrees. pose proof PI_RGT_0. field. lra. }
  rewrite E. destruct (Req_dec_T 90 180); [lra | reflexivity].
Qed.

(** ** Claims about the signed angle *)

(** C1: at the opposite unit vectors (1,0,0) and (-1,0,0), measured
    about the unit axis (0,1,0), the code returns -180, which is
    outside the range (-180, 180] that the claim and the docstrings of
    [_signed_angle_about_axis] and [get_delta] state. *)
Lemma signed_angle_outside_claimed_range :
  exists d,
    _signed_angle_about_axis (1, 0, 0) (-1, 0, 0) (0, 1, 0) = Ok d /\
    ~ (-180 < d <= 180).
Proof.
  exists (-180). split; [exact signed_angle_opposite_x | lra].
Qed.

(** What the endpoint guard computes: a raw angle of exactly +180
    degrees is returned as -180, every other raw angle as it is, so
    that every result lies in [-180, 180). *)
Lemma signed_angle_range (v0 v1 ax : Vector3) :
  exists u0 u1 d,
    _vec_norm v0 = Ok u0 /\ _vec_norm v1 = Ok u1 /\
    _signed_angle_about_axis v0 v1 ax = Ok d /\
    -180 <= d < 180 /\
    d = (if Req_dec_T
              (math_degrees
                 (math_atan2 (_vec_dot ax (_vec_cross u0 u1)) (_vec_dot u0 u1)))
              180
         then -180
         else math_degrees
                (math_atan2 (_vec_dot ax (_vec_cross u0 u1)) (_vec_dot u0 u1))).
Proof.
  destruct (vec_norm_total v0) as [u0 H0].
  destruct (vec_norm_total v1) as [u1 H1].
  destruct (signed_angle_total v0 v1 ax) as (d & Hd & Hrange).
  exists u0, u1, d. repeat split; try assumption; try apply Hrange.
  rewrite (signed_angle_eq _ _ ax _ _ H0 H1) in Hd. now inversion Hd.
Qed.

(** C9: normalisation is total.  No input makes [_vec_norm] raise (in
    particular it never divides by zero), a vector of zero magnitude is
    mapped to the zero vector, and the signed-angle computation returns
    a value on every input, degenerate ones included. *)
Theorem vec_norm_never_faults :
  (forall v, exists u, _vec_norm v = Ok u) /\
  (forall x y z,
      sqrt (x * x + y * y + z * z) = 0 -> _vec_norm (x, y, z) = Ok (0, 0, 0)) /\
  (forall v0 v1 ax, exists d, _signed_angle_about_axis v0 v1 ax = Ok d) /\
  (forall v ax, exists d,
      _signed_angle_about_axis (0, 0, 0) v ax = Ok d /\
      _signed_angle_about_axis v (0, 0, 0) ax = Ok d).
Proof.
  split; [exact vec_norm_total |].
  split.
  { intros x y z Hm. rewrite vec_norm_eq, Hm.
    destruct (Req_dec_T 0 0); [reflexivity | contradiction]. }
  split.
  { intros v0 v1 ax. destruct (signed_angle_total v0 v1 ax) as (d & Hd & _). eauto. }
  intros v ax. exists 0.
  assert (Hz : _vec_norm (0, 0, 0) = Ok (0, 0, 0)).
  { rewrite vec_norm_eq.
    replace (0 * 0 + 0 * 0 + 0 * 0) with 0 by ring. rewrite sqrt_0.
    destruct (Req_dec_T 0 0); [reflexivity | contradiction]. }
  destruct (vec_norm_total v) as [[[ux uy] uz] Hv].
  destruct ax as [[a0 a1] a2].
  split.
  - rewrite (signed_angle_eq _ _ _ _ _ Hz Hv).
    replace (_vec_dot (a0, a1, a2) (_vec_cross (0, 0, 0) (ux, uy, uz))) with 0
      by (simpl; ring).
    replace (_vec_dot (0, 0, 0) (ux, uy, uz)) with 0 by (simpl; ring).
    rewrite atan2_on_positive_axis by lra. rewrite degrees_0.
    destruct (Req_dec_T 0 180); [lra | reflexivity].
  - rewrite (signed_angle_eq _ _ _ _ _ Hv Hz).
    replace (_vec_dot (a0, a1, a2) (_vec_cross (ux, uy, uz) (0, 0, 0))) with 0
      by (simpl; ring).
    replace (_vec_dot (ux, uy, uz) (0, 0, 0)) with 0 by (simpl; ring).
    rewrite atan2_on_positive_axis by lra. rewrite degrees_0.
    destruct (Req_dec_T 0 180); [lra | reflexivity].
Qed.

(** A vector of zero magnitude, normalised. *)
Lemma vec_norm_never_faults_witness :
  sqrt (0 * 0 + 0 * 0 + 0 * 0) = 0 /\ _vec_norm (0, 0, 0) = Ok (0, 0, 0).
Proof.
  assert (H : sqrt (0 * 0 + 0 * 0 + 0 * 0) = 0).
  { replace (0 * 0 + 0 * 0 + 0 * 0) with 0 by ring. apply sqrt_0. }
  split; [exact H |].
  exact (proj1 (proj2 vec_norm_never_faults) 0 0 0 H).
Defined.

(** C6, as stated, fails at the opposite unit vectors (1,0,0) and
    (-1,0,0) about the unit axis (0,1,0): both orders give -180, so the
    two sides differ by a full turn. *)
Lemma signed_angle_antisymmetry_fails :
  exists da db,
    _vec_dot (1, 0, 0) (1, 0, 0) = 1 /\
    _vec_dot (-1, 0, 0) (-1, 0, 0) = 1 /\
    _vec_dot (0, 1, 0) (0, 1, 0) = 1 /\
    _signed_angle_about_axis (1, 0, 0) (-1, 0, 0) (0, 1, 0) = Ok da /\
    _signed_angle_about_axis (-1, 0, 0) (1, 0, 0) (0, 1, 0) = Ok db /\
    da - - db = -360.
Proof.
  exists (-180), (-180).
  repeat split; try (simpl; ring).
  - exact signed_angle_opposite_x.
  - exact signed_angle_opposite_x_swapped.
Qed.

(** C6, amended: for all vectors a, b and every axis, if the signed
    angle from a to b is not the endpoint -180, then
    signedAngle(a, b, axis) = -signedAngle(b, a, axis), exactly; and
    if it is the endpoint -180, the signed angle from b to a is -180
    as well. *)
Theorem signed_angle_antisymmetric_off_endpoint (a b ax : Vector3) (da db : R) :
  _signed_angle_about_axis a b ax = Ok da ->
  _signed_angle_about_axis b a ax = Ok db ->
  (da <> -180 -> da = - db) /\ (da = -180 -> db = -180).
Proof.
  intros Ha Hb.
  destruct (vec_norm_total a) as [ua Hua].
  destruct (vec_norm_total b) as [ub Hub].
  rewrite (signed_angle_eq _ _ ax _ _ Hua Hub) in Ha.
  rewrite (signed_angle_eq _ _ ax _ _ Hub Hua) in Hb.
  rewrite dot_cross_swap, (dot_comm ua ub) in Hb.
  set (s := _vec_dot ax (_vec_cross ua ub)) in *.
  set (c := _vec_dot ua ub) in *.
  inversion Ha as [Ea]. inversion Hb as [Eb]. clear Ha Hb.
  pose proof (degrees_range _ (atan2_range s c)) as Hr.
  destruct (Req_dec_T (math_degrees (math_atan2 s c)) 180) as [E | NE].
  - split; [intros Hne; exfalso; apply Hne; reflexivity |].
    intros _.
    apply degrees_half_turn_only in E.
    destruct (atan2_half_turn_only _ _ E) as [Hs Hc].
    assert (Hs' : - s = 0) by lra.
    rewrite (atan2_half_turn _ _ Hs' Hc), degrees_PI.
    destruct (Req_dec_T 180 180); [reflexivity | contradiction].
  - split; [| intros E; lra].
    intros _.
    assert (Hnot : ~ (s = 0 /\ c < 0)).
    { intros [Hs Hc]. apply NE.
      rewrite (atan2_half_turn _ _ Hs Hc). apply degrees_PI. }
    rewrite (atan2_opp _ _ Hnot), degrees_opp.
    destruct (Req_dec_T (- math_degrees (math_atan2 s c)) 180); lra.
Qed.

(** A quarter turn from X to Z about Y is the opposite of the quarter
    turn back; the half turn from X to -X is -180 both ways. *)
Lemma signed_angle_antisymmetric_off_endpoint_witness :
  (_signed_angle_about_axis (1, 0, 0) (0, 0, 1) (0, 1, 0) = Ok (-90) /\
   _signed_angle_about_axis (0, 0, 1) (1, 0, 0) (0, 1, 0) = Ok 90 /\
   -90 = - 90) /\
  (_signed_angle_about_axis (1, 0, 0) (-1, 0, 0) (0, 1, 0) = Ok (-180) /\
   _signed_angle_about_axis (-1, 0, 0) (1, 0, 0) (0, 1, 0) = Ok (-180)).
Proof.
  split.
  - split; [exact signed_angle_x_to_z |].
    split; [exact signed_angle_z_to_x |].
    apply (signed_angle_antisymmetric_off_endpoint
             (1, 0, 0) (0, 0, 1) (0, 1, 0) (-90) 90
             signed_angle_x_to_z signed_angle_z_to_x).
    lra.
  - split; [exact signed_angle_opposite_x |].
    destruct (_signed_angle_about_axis (-1, 0, 0) (1, 0, 0) (0, 1, 0))
      as [db | e] eqn:Hb; [| rewrite signed_angle_opposite_x_swapped in Hb;
                              discriminate Hb].
    f_equal.
    apply (signed_angle_antisymmetric_off_endpoint
             (1, 0, 0) (-1, 0, 0) (0, 1, 0) (-180) db
             signed_angle_opposite_x Hb).
    reflexivity.
Defined.

(** ** The retried sensor read *)

Lemma get_accel_data_eq (m : MPU6050) (w : world) :
  get_accel_data m w =
  if bus_fault w (bus_txn w)
  then (Raise OSError, after_txn w)
  else (Ok (sample_of (accel_regs w (bus_txn w))), after_txn w).
Proof.
  unfold get_accel_data, bind, readfrom_mem_accel, after_txn, sample_of.
  destruct (bus_fault w (bus_txn w)); [reflexivity |].
  destruct (unpack_hhh (accel_regs w (bus_txn w))) as [[ax ay] az].
  unfold lift.
  rewrite !truediv_nonzero by lra. reflexivity.
Qed.

(** The retried read never raises: it gives up with [None] exactly when
    every attempt met a bus fault, and returns a sample otherwise. *)
Lemma safe_read_accel (m : MPU6050) (n : nat) (d : Z) (w : world) :
  (reads_all_fail n w = true /\
   exists w', _safe_read (get_accel_data m) n d w = (Ok None, w')) \/
  (reads_all_fail n w = false /\
   exists r w', _safe_read (get_accel_data m) n d w = (Ok (Some r), w')).
Proof.
  revert w. induction n as [| n IH]; intros w.
  - left. split; [reflexivity |]. exists w. reflexivity.
  - unfold reads_all_fail. simpl. rewrite get_accel_data_eq.
    destruct (bus_fault w (bus_txn w)) eqn:Hf; simpl.
    + unfold bind. simpl.
      match goal with
      | |- context [_safe_read _ n d ?w1] => specialize (IH w1)
      end.
      exact IH.
    + right. split; [reflexivity |]. eauto.
Qed.

Lemma reads_all_fail_after_sleep (n : nat) (ms : Z) (w : world) :
  reads_all_fail n (snd (sleep_ms ms w)) = reads_all_fail n w.
Proof. reflexivity. Qed.

(** ** The tracker's methods *)

Lemma get_delta_exhausted (t : AngleTracker) (w : world) :
  reads_all_fail default_retries w = true ->
  exists w', get_delta t w = (Ok (None, t), w').
Proof.
  intros Hall.
  destruct (safe_read_accel (mpu t) default_retries default_delay_ms w)
    as [(_ & w' & Hr) | (Hsome & _)]; [| congruence].
  exists w'. unfold get_delta, bind. rewrite Hr. reflexivity.
Qed.

Lemma get_delta_on_sample (t : AngleTracker) (w w' : world) (r : Vector3) :
  sensor_reads (mpu t) w r w' ->
  exists d,
    _signed_angle_about_axis (g_ref t) r (axis t) = Ok d /\
    get_delta t w = (Ok (Some d, with_last_delta t d), w').
Proof.
  intros Hr.
  destruct (signed_angle_total (g_ref t) r (axis t)) as (d & Hd & _).
  exists d. split; [exact Hd |].
  unfold get_delta, bind. unfold sensor_reads in Hr. rewrite Hr.
  unfold lift. rewrite Hd. reflexivity.
Qed.

Lemma recalibrate_exhausted (t : AngleTracker) (w : world) :
  reads_all_fail default_retries w = true ->
  exists w', recalibrate t w = (Ok (false, t), w').
Proof.
  intros Hall.
  rewrite <- (reads_all_fail_after_sleep _ (calibration_delay_ms t)) in Hall.
  destruct (safe_read_accel (mpu t) default_retries default_delay_ms
              (snd (sleep_ms (calibration_delay_ms t) w)))
    as [(_ & w' & Hr) | (Hsome & _)]; [| congruence].
  exists w'. unfold recalibrate, bind. simpl in Hr |- *. rewrite Hr. reflexivity.
Qed.

Lemma recalibrate_on_sample (t : AngleTracker) (w w' : world) (r : Vector3) :
  sensor_reads (mpu t) (snd (sleep_ms (calibration_delay_ms t) w)) r w' ->
  exists u,
    _vec_norm r = Ok u /\
    recalibrate t w =
    (Ok (true, mkTracker (mpu t) (calibration_delay_ms t) (axis t)
                         (angle_mode t) u 0), w').
Proof.
  intros Hr.
  destruct (vec_norm_total r) as [u Hu].
  exists u. split; [exact Hu |].
  unfold sensor_reads in Hr.
  unfold recalibrate, bind. simpl in Hr |- *. rewrite Hr.
  unfold lift. rewrite Hu. reflexivity.
Qed.

(** C3: [get_delta] always returns; its result is the unavailable one
    ([None]) if and only if every one of the retried sensor reads
    failed, and in that case the tracker (reference, last delta, axis,
    mode) is returned as it was. *)
Theorem get_delta_unavailable_iff_exhausted (t : AngleTracker) (w : world) :
  exists out t' w',
    get_delta t w = (Ok (out, t'), w') /\
    (out = None <-> reads_all_fail default_retries w = true) /\
    (out = None -> t' = t).
Proof.
  destruct (safe_read_accel (mpu t) default_retries default_delay_ms w)
    as [(Hall & _) | (Hsome & r & w' & Hr)].
  - destruct (get_delta_exhausted t w Hall) as [w' Hg].
    exists None, t, w'. split; [exact Hg |]. split; [tauto | reflexivity].
  - destruct (get_delta_on_sample t w w' r Hr) as (d & _ & Hg).
    exists (Some d), (with_last_delta t d), w'.
    split; [exact Hg |].
    split; [split; intros H; [discriminate | congruence] | discriminate].
Qed.

(** On a dead bus the angle is unavailable and the tracker untouched. *)
Lemma get_delta_unavailable_iff_exhausted_witness :
  reads_all_fail default_retries Sample.dead_world = true /\
  exists w', get_delta Sample.tracker0 Sample.dead_world
             = (Ok (None, Sample.tracker0), w').
Proof.
  split; [reflexivity |].
  destruct (get_delta_unavailable_iff_exhausted Sample.tracker0 Sample.dead_world)
    as (out & t' & w' & Hg & Hiff & Hsame).
  assert (Hout : out = None) by (apply Hiff; reflexivity).
  exists w'. rewrite Hg, Hout, (Hsame Hout). reflexivity.
Defined.

(** C4: when every retried sensor read fails, [recalibrate] returns
    [False] and the tracker (reference, last delta, axis, mode) is as it
    was. *)
Theorem recalibrate_failure_keeps_state (t : AngleTracker) (w : world) :
  reads_all_fail default_retries w = true ->
  exists w', recalibrate t w = (Ok (false, t), w').
Proof. exact (recalibrate_exhausted t w). Qed.

Lemma recalibrate_failure_keeps_state_witness :
  reads_all_fail default_retries Sample.dead_world = true /\
  exists w', recalibrate Sample.tracker0 Sample.dead_world
             = (Ok (false, Sample.tracker0), w').
Proof.
  split; [reflexivity |].
  apply (recalibrate_failure_keeps_state Sample.tracker0 Sample.dead_world).
  reflexivity.
Defined.

Lemma sensor_reads_first_try (m : MPU6050) (w : world) :
  bus_fault w (bus_txn w) = false ->
  sensor_reads m w (sample_of (accel_regs w (bus_txn w))) (after_txn w).
Proof.
  intros Hf. unfold sensor_reads, default_retries. simpl.
  rewrite get_accel_data_eq, Hf. reflexivity.
Qed.

Lemma sample_of_burst_z : sample_of Sample.burst_z = (0, 0, 1).
Proof.
  change (sample_of Sample.burst_z) with (0 / 16384, 0 / 16384, 16384 / 16384).
  f_equal; [f_equal |]; field.
Qed.

Lemma sample_of_burst_x : sample_of Sample.burst_x = (1, 0, 0).
Proof.
  change (sample_of Sample.burst_x) with (16384 / 16384, 0 / 16384, 0 / 16384).
  f_equal; [f_equal |]; field.
Qed.

(** C5: if [recalibrate] succeeds on a sample [r], it stores the
    normalisation of [r] as the reference and 0 as the last delta; and
    if the sensor read of the [get_delta] that follows returns the
    same [r], that [get_delta] computes the signed angle from the
    stored reference to [r], which is 0, returns it, and 0 is what
    [get_last_delta] then reports. *)
Theorem recalibrate_then_get_delta_is_zero
  (t : AngleTracker) (w w1 w2 : world) (r : Vector3) :
  sensor_reads (mpu t) (snd (sleep_ms (calibration_delay_ms t) w)) r w1 ->
  sensor_reads (mpu t) w1 r w2 ->
  exists u t1,
    _vec_norm r = Ok u /\
    t1 = mkTracker (mpu t) (calibration_delay_ms t) (axis t) (angle_mode t) u 0 /\
    recalibrate t w = (Ok (true, t1), w1) /\
    _signed_angle_about_axis (g_ref t1) r (axis t1) = Ok 0 /\
    get_delta t1 w1 = (Ok (Some 0, t1), w2) /\
    get_last_delta t1 = 0.
Proof.
  intros Hcal Hnow.
  destruct (recalibrate_on_sample t w w1 r Hcal) as (u & Hu & Hrec).
  exists u. eexists. split; [exact Hu |]. split; [reflexivity |].
  split; [exact Hrec |].
  match goal with
  | |- _ /\ get_delta ?t1 _ = _ /\ _ =>
      destruct (get_delta_on_sample t1 w1 w2 r Hnow) as (d & Hd & Hg)
  end.
  simpl in Hd. rewrite (signed_angle_from_own_direction r u _ Hu) in Hd.
  inversion Hd; subst d.
  split; [exact (signed_angle_from_own_direction r u _ Hu) |].
  split; [exact Hg | reflexivity].
Qed.

(** A tracker whose reference is along X and whose last delta is 45,
    calibrated with the device at rest, Z up: the reference becomes
    (0, 0, 1) and the same sample then reads 0. *)
Lemma recalibrate_then_get_delta_is_zero_witness :
  exists t1 w1 w2,
    g_ref Sample.tilted_tracker = (1, 0, 0) /\
    recalibrate Sample.tilted_tracker Sample.still_world = (Ok (true, t1), w1) /\
    g_ref t1 = (0, 0, 1) /\
    get_delta t1 w1 = (Ok (Some 0, t1), w2) /\
    get_last_delta t1 = 0.
Proof.
  pose (ws := snd (sleep_ms 1500 Sample.still_world)).
  destruct (recalibrate_then_get_delta_is_zero
              Sample.tilted_tracker Sample.still_world
              (after_txn ws) (after_txn (after_txn ws))
              (sample_of Sample.burst_z))
    as (u & t1 & Hu & Ht1 & Hrec & _ & Hget & Hlast).
  - apply (sensor_reads_first_try (mkMPU 104) ws). reflexivity.
  - apply (sensor_reads_first_try (mkMPU 104) (after_txn ws)). reflexivity.
  - exists t1, (after_txn ws), (after_txn (after_txn ws)).
    split; [reflexivity |]. split; [exact Hrec |].
    split; [| split; [exact Hget | exact Hlast]].
    rewrite sample_of_burst_z, vec_norm_of_unit in Hu by ring.
    inversion Hu. subst u. rewrite Ht1. reflexivity.
Defined.

(** ** Construction and start-up *)

Lemma init_device_returns (m : MPU6050) (w : world) :
  exists w', _init_device m w = (Ok tt, w').
Proof.
  unfold _init_device, try_except_OSError, bind, writeto_mem, sleep_ms, ret.
  destruct (bus_fault w (bus_txn w)) eqn:H1; simpl.
  - eauto.
  - destruct (bus_fault w (S (bus_txn w))) eqn:H2; simpl; eauto.
Qed.

Lemma set_axis_eq (mode : string) :
  _set_axis mode =
  Ok (if String.eqb
           (PyStr.upper (if String.eqb mode EmptyString then "PITCH"%string else mode))
           "ROLL"
      then ((1, 0, 0), "ROLL"%string)
      else ((0, 1, 0), "PITCH"%string)).
Proof.
  unfold _set_axis.
  destruct (String.eqb (PyStr.upper _) "ROLL").
  - rewrite vec_norm_of_unit by ring. reflexivity.
  - rewrite vec_norm_of_unit by ring. reflexivity.
Qed.

Lemma init_returns (mode : string) (mpu_addr delay : Z) (w : world) :
  exists ax am w0,
    AngleTracker_init mode mpu_addr delay w =
    (Ok (mkTracker (mkMPU mpu_addr) delay ax am (0, 0, 1) 0), w0).
Proof.
  unfold AngleTracker_init, MPU6050_init, bind.
  destruct (init_device_returns (mkMPU mpu_addr) w) as [w0 Hdev].
  rewrite Hdev. unfold lift. rewrite set_axis_eq. unfold ret.
  eauto.
Qed.



(** ** The DNS catch-all *)

Import Main.

Lemma dns_turn_sends (ip_bytes data : list byte) (cli : peer)
  (rest : list recv_event) (n : net) :
  inbox n = Datagram data cli :: rest ->
  (12 <= List.length data)%nat ->
  fst (dns_turn ip_bytes n) = Ok tt /\
  sendto_calls (snd (dns_turn ip_bytes n))
  = (dns_response ip_bytes data, cli) :: sendto_calls n.
Proof.
  intros Hin Hlen.
  assert (Hnot : orb (match data with [] => true | _ => false end)
                     (Nat.ltb (List.length data) 12) = false).
  { apply orb_false_iff. split.
    - destruct data; [simpl in Hlen; lia | reflexivity].
    - apply Nat.ltb_ge. exact Hlen. }
  unfold dns_turn, try_except_OSError, bind, recvfrom.
  rewrite Hin, Hnot. unfold sendto. simpl.
  destruct (send_fault n (List.length (sendto_calls n))); simpl; split; reflexivity.
Qed.

Lemma dns_turn_skips (ip_bytes data : list byte) (cli : peer)
  (rest : list recv_event) (n : net) :
  inbox n = Datagram data cli :: rest ->
  (List.length data < 12)%nat ->
  dns_turn ip_bytes n
  = (Ok tt, mkNet rest (send_fault n) (sendto_calls n) (1%Z :: naps n)).
Proof.
  intros Hin Hlen.
  apply Nat.ltb_lt in Hlen.
  unfold dns_turn, try_except_OSError, bind, recvfrom.
  rewrite Hin, Hlen, orb_true_r. reflexivity.
Qed.

Lemma firstn_length_app {A : Type} (l l' : list A) :
  firstn (List.length l) (l ++ l') = l.
Proof. induction l as [| a l IH]; simpl; [destruct l' |]; congruence. Qed.

Lemma skipn_length_app {A : Type} (l l' : list A) :
  skipn (List.length l) (l ++ l') = l'.
Proof. induction l as [| a l IH]; simpl; [destruct l' |]; congruence. Qed.

(** The wire layout of the packet built from a datagram of at least
    twelve bytes. *)
Lemma dns_response_layout (ip_bytes data : list byte) :
  (12 <= List.length data)%nat ->
  let pkt := dns_response ip_bytes data in
  let answer := skipn (List.length data) pkt in
  slice 0 2 pkt = slice 0 2 data /\
  slice 2 4 pkt = [x81; x80] /\
  slice 4 6 pkt = slice 4 6 data /\
  be_uint (slice 6 8 pkt) = 1%Z /\
  be_uint (slice 8 10 pkt) = 0%Z /\
  be_uint (slice 10 12 pkt) = 0%Z /\
  slice 12 (List.length data) pkt = skipn 12 data /\
  slice 0 2 answer = [xc0; x0c] /\
  be_uint (slice 2 4 answer) = 1%Z /\
  be_uint (slice 4 6 answer) = 1%Z /\
  be_uint (slice 6 10 answer) = 60%Z /\
  be_uint (slice 10 12 answer) = 4%Z /\
  skipn 12 answer = ip_bytes.
Proof.
  intros Hlen.
  do 12 (destruct data as [| ? data]; [simpl in Hlen; lia |]).
  clear Hlen. unfold dns_response, slice. cbn [List.length Nat.sub skipn firstn app].
  rewrite Nat.sub_0_r, firstn_length_app, !skipn_length_app.
  repeat split; reflexivity.
Qed.

(** C2: for every received datagram of at least 12 bytes the responder
    hands [sendto] one packet, addressed to the sender, made of: the
    query's 2-byte transaction id; the flags 0x8180; the query's
    question count; an answer count of 1; authority and additional
    counts of 0; the bytes of the query after its header, unchanged;
    and one answer record: the compression pointer 0xC00C to the
    question name, type 1 (A), class 1 (IN), TTL 60, data length 4 and
    the bytes of the configured address. *)
Theorem dns_answer_packet (ip : string) (ip_bytes data : list byte) (cli : peer)
  (rest : list recv_event) (n : net) :
  ip_bytes_of ip = Ok ip_bytes ->
  inbox n = Datagram data cli :: rest ->
  (12 <= List.length data)%nat ->
  let pkt := dns_response ip_bytes data in
  let answer := skipn (List.length data) pkt in
  sendto_calls (snd (dns_catch_all ip 1 n)) = (pkt, cli) :: sendto_calls n /\
  slice 0 2 pkt = slice 0 2 data /\
  slice 2 4 pkt = [x81; x80] /\
  slice 4 6 pkt = slice 4 6 data /\
  be_uint (slice 6 8 pkt) = 1%Z /\
  be_uint (slice 8 10 pkt) = 0%Z /\
  be_uint (slice 10 12 pkt) = 0%Z /\
  slice 12 (List.length data) pkt = skipn 12 data /\
  slice 0 2 answer = [xc0; x0c] /\
  be_uint (slice 2 4 answer) = 1%Z /\
  be_uint (slice 4 6 answer) = 1%Z /\
  be_uint (slice 6 10 answer) = 60%Z /\
  be_uint (slice 10 12 answer) = 4%Z /\
  skipn 12 answer = ip_bytes.
Proof.
  intros Hip Hin Hlen pkt answer.
  split; [| exact (dns_response_layout ip_bytes data Hlen)].
  destruct (dns_turn_sends ip_bytes data cli rest n Hin Hlen) as [Hok Hsent].
  unfold dns_catch_all, bind, lift. rewrite Hip. simpl turns. unfold bind.
  destruct (dns_turn ip_bytes n) as [r n'].
  simpl in Hok, Hsent. rewrite Hok. exact Hsent.
Qed.

(** The query 0x1234 for the name [a], answered with 192.168.4.1. *)
Lemma dns_answer_packet_witness :
  ip_bytes_of AP_IP = Ok [xc0; xa8; x04; x01] /\
  sendto_calls (snd (dns_catch_all AP_IP 1 Sample.net_with_query))
  = [([x12; x34; x81; x80; x00; x01; x00; x01; x00; x00; x00; x00;
       x01; x61; x00; x00; x01; x00; x01;
       xc0; x0c; x00; x01; x00; x01; x00; x00; x00; x3c; x00; x04;
       xc0; xa8; x04; x01], Sample.asker)].
Proof.
  split; [reflexivity |].
  apply (dns_answer_packet AP_IP [xc0; xa8; x04; x01] Sample.query Sample.asker []
           Sample.net_with_query).
  - reflexivity.
  - reflexivity.
  - simpl. lia.
Defined.

(** C8: a received datagram shorter than 12 bytes is dropped: the turn
    of the loop returns normally, calls [sendto] not at all, and only
    sleeps one millisecond before the next [recvfrom]. *)
Theorem dns_short_datagram_dropped (ip_bytes data : list byte) (cli : peer)
  (rest : list recv_event) (n : net) :
  inbox n = Datagram data cli :: rest ->
  (List.length data < 12)%nat ->
  dns_turn ip_bytes n
  = (Ok tt, mkNet rest (send_fault n) (sendto_calls n) (1%Z :: naps n)) /\
  sendto_calls (snd (dns_turn ip_bytes n)) = sendto_calls n.
Proof.
  intros Hin Hlen.
  rewrite (dns_turn_skips ip_bytes data cli rest n Hin Hlen).
  split; reflexivity.
Qed.

(** A five-byte datagram: nothing is sent. *)
Lemma dns_short_datagram_dropped_witness :
  sendto_calls (snd (dns_turn [xc0; xa8; x04; x01] Sample.net_with_runt)) = [].
Proof.
  apply (dns_short_datagram_dropped [xc0; xa8; x04; x01]
           [x12; x34; x01; x00; x00] Sample.asker [] Sample.net_with_runt).
  - reflexivity.
  - simpl. lia.
Defined.

(** ** The HTTP engine *)

Lemma send_response_204_eq (ctype body : string) (c : conn) :
  send_response 204 ctype body c =
  if wr_fault c (wr_calls c)
  then (Raise OSError,
        mkConn (rd_pending c) (wr_fault c) (S (wr_calls c)) (wr_chunks c) (closes c))
  else (Ok tt,
        mkConn (rd_pending c) (wr_fault c) (S (wr_calls c))
               (wr_chunks c ++ [response_header 204 ctype body]) (closes c)).
Proof.
  unfold send_response, bind, awrite.
  rewrite andb_false_r.
  destruct (wr_fault c (wr_calls c)); reflexivity.
Qed.

Lemma header_204_empty :
  response_header 204 text_plain EmptyString =
  ("HTTP/1.1 204 No Content" ++ PyStr.CRLF
   ++ "Content-Type: text/plain; charset=utf-8" ++ PyStr.CRLF
   ++ "Content-Length: 0" ++ PyStr.CRLF
   ++ "Cache-Control: no-store" ++ PyStr.CRLF
   ++ "Connection: close" ++ PyStr.CRLF ++ PyStr.CRLF)%string.
Proof. reflexivity. Qed.

Section HttpFacts.

Variable decode : string -> res string.
Variable py_int : string -> res Z.
Variable format_angle : R -> string.
Variable index_page : string.

Lemma dispatch_probe (path : string) (st : server) :
  str_in path ["/generate_204"; "/gen_204"]%string = true ->
  dispatch format_angle index_page "GET" path st
  = on_conn (send_response 204 text_plain EmptyString) st.
Proof.
  intros Hp. unfold dispatch. rewrite Hp. reflexivity.
Qed.

(** Draining a declared body reads, never writes, and never fails the
    handler. *)
Lemma drain_body (content_length : Z) (st : server) :
  exists pending,
    (if (content_length =? 0)%Z then ret tt
     else try_except (on_conn (readexactly content_length)) (ret tt)) st
    = (Ok tt,
       mkServer (mkConn pending (wr_fault (sv_conn st)) (wr_calls (sv_conn st))
                        (wr_chunks (sv_conn st)) (closes (sv_conn st)))
                (sv_tracker st) (sv_world st)).
Proof.
  destruct st as [[pending wf wc ch cl] t w].
  destruct (content_length =? 0)%Z.
  - exists pending. reflexivity.
  - unfold try_except, on_conn, readexactly, bind, readline, ret. simpl.
    destruct pending as [| [b |] rest]; simpl; eauto.
Qed.

Lemma serve_probe (st : server) (req line path : string)
  (more : list string) (hdrs pending' : list rd_event) (cl : Z) (host : string) :
  rd_pending (sv_conn st) = RdBytes req :: hdrs ->
  req <> EmptyString ->
  decode req = Ok line ->
  PyStr.split_ws line = "GET"%string :: path :: more ->
  str_in path ["/generate_204"; "/gen_204"]%string = true ->
  read_headers decode py_int hdrs 0 EmptyString = (Ok (cl, host), pending') ->
  wr_fault (sv_conn st) (wr_calls (sv_conn st)) = false ->
  exists st',
    serve decode py_int format_angle index_page st = (Ok tt, st') /\
    wr_chunks (sv_conn st')
    = wr_chunks (sv_conn st) ++ [response_header 204 text_plain EmptyString] /\
    wr_calls (sv_conn st') = S (wr_calls (sv_conn st)) /\
    wr_fault (sv_conn st') = wr_fault (sv_conn st).
Proof.
  intros Hpend Hreq Hdec Hsplit Hpath Hhdrs Hwr.
  destruct st as [[pending wf wc ch cls] t w]. simpl in *. subst pending.
  unfold serve, bind. unfold on_conn at 1. unfold readline. simpl.
  assert (Hne : String.eqb req EmptyString = false)
    by (destruct req; [contradiction | reflexivity]).
  rewrite Hne.
  unfold try_except at 1. unfold lift. rewrite Hdec, Hsplit.
  unfold on_conn at 1. unfold headers. simpl. rewrite Hhdrs. simpl.
  match goal with
  | |- context [(if (cl =? 0)%Z then ?a else ?b) ?s] =>
      destruct (drain_body cl s) as [pending Hdrain]
  end.
  simpl in Hdrain. rewrite Hdrain.
  rewrite (dispatch_probe path _ Hpath).
  unfold on_conn. simpl. rewrite send_response_204_eq. simpl. rewrite Hwr.
  eexists. split; [reflexivity |]. simpl. repeat split.
Qed.

Lemma handle_client_probe (st : server) (req line path : string)
  (more : list string) (hdrs pending' : list rd_event) (cl : Z) (host : string) :
  rd_pending (sv_conn st) = RdBytes req :: hdrs ->
  req <> EmptyString ->
  decode req = Ok line ->
  PyStr.split_ws line = "GET"%string :: path :: more ->
  str_in path ["/generate_204"; "/gen_204"]%string = true ->
  read_headers decode py_int hdrs 0 EmptyString = (Ok (cl, host), pending') ->
  wr_fault (sv_conn st) (wr_calls (sv_conn st)) = false ->
  exists st',
    handle_client decode py_int format_angle index_page st = (Ok tt, st') /\
    wr_chunks (sv_conn st')
    = wr_chunks (sv_conn st) ++ [response_header 204 text_plain EmptyString] /\
    wr_calls (sv_conn st') = S (wr_calls (sv_conn st)).
Proof.
  intros Hpend Hreq Hdec Hsplit Hpath Hhdrs Hwr.
  destruct (serve_probe st req line path more hdrs pending' cl host
              Hpend Hreq Hdec Hsplit Hpath Hhdrs Hwr)
    as (st' & Hserve & Hchunks & Hcalls & _).
  unfold handle_client, bind. unfold try_except at 1. rewrite Hserve.
  unfold try_except, on_conn, aclose. simpl.
  eexists. split; [reflexivity |]. simpl. split; assumption.
Qed.

(** C7, amended: whatever body [send_response] is given, with status
    204 it issues the header write only; and a request line
    [GET /generate_204] or [GET /gen_204] whose header lines are read
    and decoded without an exception and whose header write succeeds
    is answered by one write, the header block of a 204 response
    (status line [HTTP/1.1 204 No Content], [Content-Length: 0],
    ending in a blank line), and nothing after it. *)
Theorem no_content_response_has_no_body :
  (forall ctype body c,
      wr_chunks (snd (send_response 204 ctype body c))
      = wr_chunks c
        ++ (if wr_fault c (wr_calls c) then [] else [response_header 204 ctype body]) /\
      wr_calls (snd (send_response 204 ctype body c)) = S (wr_calls c)) /\
  (forall st req line path more hdrs pending' cl host,
      rd_pending (sv_conn st) = RdBytes req :: hdrs ->
      req <> EmptyString ->
      decode req = Ok line ->
      PyStr.split_ws line = "GET"%string :: path :: more ->
      path = "/generate_204"%string \/ path = "/gen_204"%string ->
      read_headers decode py_int hdrs 0 EmptyString = (Ok (cl, host), pending') ->
      wr_fault (sv_conn st) (wr_calls (sv_conn st)) = false ->
      exists st',
        handle_client decode py_int format_angle index_page st = (Ok tt, st') /\
        wr_chunks (sv_conn st')
        = wr_chunks (sv_conn st) ++ [response_header 204 text_plain EmptyString] /\
        wr_calls (sv_conn st') = S (wr_calls (sv_conn st))) /\
  response_header 204 text_plain EmptyString =
  ("HTTP/1.1 204 No Content" ++ PyStr.CRLF
   ++ "Content-Type: text/plain; charset=utf-8" ++ PyStr.CRLF
   ++ "Content-Length: 0" ++ PyStr.CRLF
   ++ "Cache-Control: no-store" ++ PyStr.CRLF
   ++ "Connection: close" ++ PyStr.CRLF ++ PyStr.CRLF)%string.
Proof.
  split; [| split; [| exact header_204_empty]].
  - intros ctype body c. rewrite send_response_204_eq.
    destruct (wr_fault c (wr_calls c)); simpl; split;
      try reflexivity; symmetry; apply app_nil_r.
  - intros st req line path more hdrs pending' cl host
           Hpend Hreq Hdec Hsplit Hpath Hhdrs Hwr.
    apply (handle_client_probe st req line path more hdrs pending' cl host);
      try assumption.
    destruct Hpath as [-> | ->]; reflexivity.
Qed.

End HttpFacts.

(** C7, as stated, fails: the request [GET /generate_204] followed by
    a header line that [bytes.decode] rejects is answered by the
    [except] branch of [handle_client], with the 500 header block and
    the twelve body bytes [Server error]. *)
Lemma probe_with_undecodable_header_gets_500 :
  exists st',
    rd_pending (sv_conn Sample.bad_header_server)
    = [RdBytes ("GET /generate_204 HTTP/1.1" ++ PyStr.CRLF);
       RdBytes (String (ascii_of_nat 255) PyStr.CRLF);
       RdBytes PyStr.CRLF] /\
    Sample.decode_7bit ("GET /generate_204 HTTP/1.1" ++ PyStr.CRLF)
    = Ok ("GET /generate_204 HTTP/1.1" ++ PyStr.CRLF)%string /\
    PyStr.split_ws ("GET /generate_204 HTTP/1.1" ++ PyStr.CRLF)
    = ["GET"; "/generate_204"; "HTTP/1.1"]%string /\
    handle_client Sample.decode_7bit PyStr.int_of_digits Sample.format_fixed
                  Sample.page Sample.bad_header_server = (Ok tt, st') /\
    wr_chunks (sv_conn st')
    = [response_header 500 text_plain "Server error"; "Server error"%string] /\
    String.length "Server error" = 12%nat.
Proof.
  eexists. do 3 (split; [reflexivity |]).
  split; [reflexivity |]. split; reflexivity.
Qed.

(** The Android probe on a healthy connection: one write, the 204
    header block. *)
Lemma no_content_response_has_no_body_witness :
  exists st',
    handle_client Sample.decode_ascii PyStr.int_of_digits Sample.format_fixed
                  Sample.page Sample.probe_server = (Ok tt, st') /\
    wr_chunks (sv_conn st') = [response_header 204 text_plain EmptyString] /\
    wr_calls (sv_conn st') = 1%nat.
Proof.
  eapply (proj1 (proj2 (no_content_response_has_no_body
                          Sample.decode_ascii PyStr.int_of_digits
                          Sample.format_fixed Sample.page))
            Sample.probe_server).
  - reflexivity.
  - discriminate.
  - reflexivity.
  - reflexivity.
  - left. reflexivity.
  - reflexivity.
  - reflexivity.
Defined.

(** * Further properties of [reader.py] *)

(** ** Normalisation *)

Lemma sqrt_sum_squares_pos (x y z : R) :
  (x, y, z) <> (0, 0, 0) -> 0 < sqrt (x * x + y * y + z * z).
Proof.
  intros Hne. apply sqrt_lt_R0.
  destruct (Req_dec_T x 0) as [Hx | Hx]; [| nra].
  destruct (Req_dec_T y 0) as [Hy | Hy]; [| nra].
  destruct (Req_dec_T z 0) as [Hz | Hz]; [| nra].
  exfalso. apply Hne. now subst.
Qed.

Lemma vec_norm_nonzero (x y z : R) :
  (x, y, z) <> (0, 0, 0) ->
  _vec_norm (x, y, z) =
  Ok (x / sqrt (x * x + y * y + z * z),
      y / sqrt (x * x + y * y + z * z),
      z / sqrt (x * x + y * y + z * z)).
Proof.
  intros Hne. rewrite vec_norm_eq.
  pose proof (sqrt_sum_squares_pos x y z Hne).
  destruct (Req_dec_T (sqrt (x * x + y * y + z * z)) 0); [lra | reflexivity].
Qed.

Lemma vec_norm_zero : _vec_norm (0, 0, 0) = Ok (0, 0, 0).
Proof.
  rewrite vec_norm_eq.
  replace (0 * 0 + 0 * 0 + 0 * 0) with 0 by ring. rewrite sqrt_0.
  destruct (Req_dec_T 0 0); [reflexivity | contradiction].
Qed.

Lemma vec_zero_dec (x y z : R) :
  {(x, y, z) = (0, 0, 0)} + {(x, y, z) <> (0, 0, 0)}.
Proof.
  destruct (Req_dec_T x 0) as [Hx | Hx];
    [| right; intros E; inversion E; contradiction].
  destruct (Req_dec_T y 0) as [Hy | Hy];
    [| right; intros E; inversion E; contradiction].
  destruct (Req_dec_T z 0) as [Hz | Hz];
    [| right; intros E; inversion E; contradiction].
  left. now subst.
Qed.

Lemma vec_norm_unit_or_zero (v u : Vector3) :
  _vec_norm v = Ok u ->
  (v = (0, 0, 0) /\ u = (0, 0, 0)) \/ (v <> (0, 0, 0) /\ _vec_dot u u = 1).
Proof.
  destruct v as [[x y] z]. intros Hn.
  destruct (vec_zero_dec x y z) as [E | Hne].
  - left. rewrite E in Hn |- *. rewrite vec_norm_zero in Hn.
    inversion Hn. split; reflexivity.
  - right. split; [exact Hne |].
    rewrite (vec_norm_nonzero _ _ _ Hne) in Hn. inversion Hn. subst u. clear Hn.
    pose proof (sqrt_sum_squares_pos x y z Hne) as Hm.
    pose proof (sqrt_sqrt _ (sum_squares_nonneg x y z)) as Hs.
    simpl. set (m := sqrt (x * x + y * y + z * z)) in *.
    replace (x / m * (x / m) + y / m * (y / m) + z / m * (z / m))
      with ((x * x + y * y + z * z) / (m * m)) by (field; lra).
    rewrite <- Hs. field. lra.
Qed.

(** X1: normalising an accelerometer sample gives the zero vector
    when its three registers are zero and a vector of length 1
    otherwise. *)
Theorem vec_norm_of_sample_is_unit (data : burst) (u : Vector3) :
  _vec_norm (sample_of data) = Ok u ->
  (unpack_hhh data = (0, 0, 0)%Z /\ u = (0, 0, 0)) \/
  (unpack_hhh data <> (0, 0, 0)%Z /\ _vec_dot u u = 1).
Proof.
  unfold sample_of. destruct (unpack_hhh data) as [[ax ay] az]. intros Hn.
  destruct (vec_norm_unit_or_zero _ _ Hn) as [[Hv Hu] | [Hv Hu]].
  - left. split; [| exact Hu].
    inversion Hv as [[Hx Hy Hz]].
    assert (Ex : IZR ax = 0) by lra.
    assert (Ey : IZR ay = 0) by lra.
    assert (Ez : IZR az = 0) by lra.
    apply eq_IZR_R0 in Ex, Ey, Ez. now subst.
  - right. split; [| exact Hu].
    intros E. inversion E. subst. apply Hv.
    f_equal; [f_equal |]; field.
Qed.

(** The sample with registers (3, 0, 4), of length 5/16384. *)
Lemma vec_norm_of_sample_is_unit_witness :
  exists u,
    _vec_norm (sample_of (x00, x03, x00, x00, x00, x04)) = Ok u /\
    _vec_dot u u = 1.
Proof.
  destruct (vec_norm_total (sample_of (x00, x03, x00, x00, x00, x04))) as [u Hu].
  exists u. split; [exact Hu |].
  destruct (vec_norm_of_sample_is_unit _ _ Hu) as [[Hz _] | [_ H1]].
  - cbv in Hz. discriminate Hz.
  - exact H1.
Defined.

Lemma vec_norm_scale (k : R) (v : Vector3) :
  0 < k -> _vec_norm (scale k v) = _vec_norm v.
Proof.
  intros Hk. destruct v as [[x y] z]. unfold scale.
  rewrite !vec_norm_eq.
  replace (k * x * (k * x) + k * y * (k * y) + k * z * (k * z))
    with (k * k * (x * x + y * y + z * z)) by ring.
  rewrite sqrt_mult_alt by nra. rewrite sqrt_square by lra.
  set (m := sqrt (x * x + y * y + z * z)).
  destruct (Req_dec_T m 0) as [E | NE]; destruct (Req_dec_T (k * m) 0) as [E' | NE'].
  - reflexivity.
  - exfalso. apply NE'. rewrite E. ring.
  - exfalso. apply NE. apply (Rmult_eq_reg_l k); [rewrite E'; ring | lra].
  - do 2 f_equal; [f_equal |]; field; split; lra.
Qed.

(** ** The signed angle *)

(** X2: the signed angle from any vector to itself is 0, about every
    axis (the zero vector included). *)
Theorem signed_angle_self_is_zero (v ax : Vector3) :
  _signed_angle_about_axis v v ax = Ok 0.
Proof.
  destruct (vec_norm_total v) as [[[ux uy] uz] Hu].
  rewrite (signed_angle_eq _ _ ax _ _ Hu Hu).
  destruct ax as [[a0 a1] a2].
  assert (Hs : _vec_dot (a0, a1, a2) (_vec_cross (ux, uy, uz) (ux, uy, uz)) = 0)
    by (simpl; ring).
  assert (Hc : 0 <= _vec_dot (ux, uy, uz) (ux, uy, uz))
    by (simpl; apply sum_squares_nonneg).
  rewrite Hs, (atan2_on_positive_axis _ Hc), degrees_0.
  destruct (Req_dec_T 0 180); [lra | reflexivity].
Qed.

(** X3: the signed angle between two accelerometer samples depends on
    their directions only: stretching or shrinking either sample by a
    factor between 1/1024 and 1024 leaves it unchanged. *)
Theorem signed_angle_scale_invariant (k l : R) (d0 d1 : burst) (ax : Vector3) :
  1 / 1024 <= k <= 1024 -> 1 / 1024 <= l <= 1024 ->
  _signed_angle_about_axis (scale k (sample_of d0)) (scale l (sample_of d1)) ax
  = _signed_angle_about_axis (sample_of d0) (sample_of d1) ax.
Proof.
  intros Hk Hl. unfold _signed_angle_about_axis.
  rewrite (vec_norm_scale k (sample_of d0)) by lra.
  rewrite (vec_norm_scale l (sample_of d1)) by lra.
  reflexivity.
Qed.

(** 1 g along X doubled and 1 g along Z tripled: still a quarter
    turn. *)
Lemma signed_angle_scale_invariant_witness :
  _signed_angle_about_axis (scale 2 (sample_of Sample.burst_x))
                           (scale 3 (sample_of Sample.burst_z)) (0, 1, 0)
  = Ok (-90).
Proof.
  rewrite (signed_angle_scale_invariant 2 3 Sample.burst_x Sample.burst_z (0, 1, 0))
    by lra.
  rewrite sample_of_burst_x, sample_of_burst_z.
  exact signed_angle_x_to_z.
Defined.

(** [math.atan2] recovers an angle from its sine and cosine. *)
Lemma atan2_sin_cos (t : R) : - PI < t <= PI -> math_atan2 (sin t) (cos t) = t.
Proof.
  intros [Hlo Hhi]. pose proof PI_RGT_0 as HPI.
  unfold math_atan2.
  destruct (Rtotal_order t (- (PI / 2))) as [Hq | [Hq | Hq]].
  - (* third quadrant *)
    assert (Hc : cos t < 0).
    { replace (cos t) with (- cos (t + PI)) by (rewrite neg_cos; ring).
      pose proof (cos_gt_0 (t + PI)). lra. }
    assert (Hs : sin t < 0).
    { replace (sin t) with (- sin (t + PI)) by (rewrite neg_sin; ring).
      pose proof (sin_gt_0 (t + PI)). lra. }
    destruct (Rlt_dec 0 (cos t)); [lra |].
    destruct (Rlt_dec (cos t) 0); [| lra].
    destruct (Rle_dec 0 (sin t)); [lra |].
    replace (sin t / cos t) with (tan (t + PI)).
    + rewrite atan_tan by lra. ring.
    + unfold tan. rewrite neg_sin, neg_cos. field. lra.
  - subst t.
    rewrite cos_neg, cos_PI2, sin_neg, sin_PI2.
    repeat match goal with
           | |- context [Rlt_dec ?a ?b] => destruct (Rlt_dec a b)
           end; lra.
  - destruct (Rtotal_order t (PI / 2)) as [Hp | [Hp | Hp]].
    + assert (Hc : 0 < cos t) by (apply cos_gt_0; lra).
      destruct (Rlt_dec 0 (cos t)); [| lra].
      fold (tan t). apply atan_tan. lra.
    + subst t. rewrite cos_PI2, sin_PI2.
      repeat match goal with
             | |- context [Rlt_dec ?a ?b] => destruct (Rlt_dec a b)
             end; lra.
    + (* second quadrant, half turn included *)
      assert (Hc : cos t < 0) by (apply cos_lt_0; lra).
      assert (Hs : 0 <= sin t).
      { destruct Hhi as [Hhi | Hhi].
        - left. apply sin_gt_0; lra.
        - subst t. rewrite sin_PI. lra. }
      destruct (Rlt_dec 0 (cos t)); [lra |].
      destruct (Rlt_dec (cos t) 0); [| lra].
      destruct (Rle_dec 0 (sin t)); [| lra].
      replace (sin t / cos t) with (tan (t - PI)).
      * rewrite atan_tan by lra. ring.
      * unfold tan.
        assert (Es : sin t = - sin (t - PI)).
        { rewrite <- neg_sin. f_equal. ring. }
        assert (Ec : cos t = - cos (t - PI)).
        { rewrite <- neg_cos. f_equal. ring. }
        rewrite Es, Ec. field. lra.
Qed.

Lemma degrees_is_half_turn (t : R) : math_degrees t = 180 <-> t = PI.
Proof.
  split; [apply degrees_half_turn_only | intros ->; apply degrees_PI].
Qed.

(** X4: in PITCH mode (axis +Y) the computation recovers the rotation:
    gravity turned from +Z by [t] radians about +Y, i.e. pointing
    along (sin t, 0, cos t), is reported at [t] in degrees, for every
    [t] between -3 and 3 radians (about 172 degrees either way).  In
    ROLL mode (axis +X) the same holds for (0, -sin t, cos t). *)
Theorem signed_angle_recovers_rotation (t : R) :
  -3 <= t <= 3 ->
  _signed_angle_about_axis (0, 0, 1) (sin t, 0, cos t) (0, 1, 0)
  = Ok (math_degrees t) /\
  _signed_angle_about_axis (0, 0, 1) (0, - sin t, cos t) (1, 0, 0)
  = Ok (math_degrees t).
Proof.
  intros [Hlo' Hhi'].
  pose proof PI2_3_2 as H3.
  assert (Hlo : - PI < t) by lra.
  assert (Hhi : t < PI) by lra.
  pose proof (sin2_cos2 t) as Hsc. unfold Rsqr in Hsc.
  assert (Hz : _vec_norm (0, 0, 1) = Ok (0, 0, 1))
    by (apply vec_norm_of_unit; ring).
  assert (Hne : math_degrees t <> 180).
  { intros E. apply degrees_is_half_turn in E. lra. }
  split.
  - assert (Hv : _vec_norm (sin t, 0, cos t) = Ok (sin t, 0, cos t))
      by (apply vec_norm_of_unit; lra).
    rewrite (signed_angle_eq _ _ _ _ _ Hz Hv).
    replace (_vec_dot (0, 1, 0) (_vec_cross (0, 0, 1) (sin t, 0, cos t)))
      with (sin t) by (simpl; ring).
    replace (_vec_dot (0, 0, 1) (sin t, 0, cos t)) with (cos t) by (simpl; ring).
    rewrite atan2_sin_cos by lra.
    destruct (Req_dec_T (math_degrees t) 180); [contradiction | reflexivity].
  - assert (Hv : _vec_norm (0, - sin t, cos t) = Ok (0, - sin t, cos t))
      by (apply vec_norm_of_unit; lra).
    rewrite (signed_angle_eq _ _ _ _ _ Hz Hv).
    replace (_vec_dot (1, 0, 0) (_vec_cross (0, 0, 1) (0, - sin t, cos t)))
      with (sin t) by (simpl; ring).
    replace (_vec_dot (0, 0, 1) (0, - sin t, cos t)) with (cos t) by (simpl; ring).
    rewrite atan2_sin_cos by lra.
    destruct (Req_dec_T (math_degrees t) 180); [contradiction | reflexivity].
Qed.

(** A quarter turn, [t = PI / 2]: gravity along +X is reported at 90
    degrees about +Y. *)
Lemma signed_angle_recovers_rotation_witness :
  -3 <= PI / 2 <= 3 /\
  _signed_angle_about_axis (0, 0, 1) (sin (PI / 2), 0, cos (PI / 2)) (0, 1, 0)
  = Ok (math_degrees (PI / 2)) /\
  math_degrees (PI / 2) = 90.
Proof.
  assert (Hb : -3 <= PI / 2 <= 3).
  { pose proof PI_4. pose proof PI_RGT_0. lra. }
  split; [exact Hb |].
  split; [exact (proj1 (signed_angle_recovers_rotation (PI / 2) Hb)) |].
  unfold math_degrees. pose proof PI_RGT_0. field. lra.
Defined.

(** ** The accelerometer driver *)

Lemma int16_be_range (hi lo : byte) :
  (-32768 <= int16_be hi lo <= 32767)%Z.
Proof.
  unfold int16_be.
  pose proof (Byte.to_N_bounded hi). pose proof (Byte.to_N_bounded lo).
  destruct (Z.ltb_spec (Z.of_N (Byte.to_N hi) * 256 + Z.of_N (Byte.to_N lo)) 32768);
    lia.
Qed.

Lemma int16_ratio_range (n : Z) :
  (-32768 <= n <= 32767)%Z -> -2 <= IZR n / 16384 < 2.
Proof.
  intros [Hlo Hhi].
  apply IZR_le in Hlo. apply IZR_le in Hhi.
  split; lra.
Qed.

(** X5: every sample [get_accel_data] returns has its three components
    in [-2, 2), the range of the +-2 g setting: each is a signed 16-bit
    register value divided by 16384. *)
Theorem accel_sample_within_2g (m : MPU6050) (w w' : world) (x y z : R) :
  get_accel_data m w = (Ok (x, y, z), w') ->
  -2 <= x < 2 /\ -2 <= y < 2 /\ -2 <= z < 2.
Proof.
  rewrite get_accel_data_eq.
  destruct (bus_fault w (bus_txn w)); [discriminate |].
  unfold sample_of, unpack_hhh.
  destruct (accel_regs w (bus_txn w)) as [[[[[b0 b1] b2] b3] b4] b5].
  intros E. inversion E. subst. clear E.
  repeat split; apply int16_ratio_range; apply int16_be_range.
Qed.

(** At rest, Z up: the sample (0, 0, 1). *)
Lemma accel_sample_within_2g_witness :
  get_accel_data (mkMPU 104) Sample.still_world
  = (Ok (0 / 16384, 0 / 16384, 16384 / 16384), after_txn Sample.still_world) /\
  -2 <= 16384 / 16384 < 2.
Proof.
  assert (E : get_accel_data (mkMPU 104) Sample.still_world
              = (Ok (0 / 16384, 0 / 16384, 16384 / 16384),
                 after_txn Sample.still_world))
    by (rewrite get_accel_data_eq; reflexivity).
  split; [exact E |].
  exact (proj2 (proj2 (accel_sample_within_2g _ _ _ _ _ _ E))).
Defined.

Lemma repeat_snoc_cons {A : Type} (d : A) (k : nat) (l : list A) :
  repeat d k ++ d :: l = d :: repeat d k ++ l.
Proof. induction k as [| k IH]; simpl; [| rewrite IH]; reflexivity. Qed.

(** X6: the retried sensor read stops at the first bus transaction
    that succeeds and returns its sample; it sleeps [delay_ms] after
    every failed attempt (the last one too), issues one transaction
    per attempt and never more than [retries], and gives [None] only
    when all [retries] attempts failed.  It never raises. *)
Theorem safe_read_effort (m : MPU6050) (n : nat) (d : Z) (w : world) :
  exists r w',
    _safe_read (get_accel_data m) n d w = (Ok r, w') /\
    r = (if Nat.ltb (failures_before (bus_fault w) (bus_txn w) n) n
         then Some (sample_of
                      (accel_regs w
                         (bus_txn w + failures_before (bus_fault w) (bus_txn w) n)))
         else None) /\
    bus_txn w' = (bus_txn w
                  + (if Nat.ltb (failures_before (bus_fault w) (bus_txn w) n) n
                     then S (failures_before (bus_fault w) (bus_txn w) n)
                     else failures_before (bus_fault w) (bus_txn w) n))%nat /\
    (bus_txn w' <= bus_txn w + n)%nat /\
    slept w' = repeat d (failures_before (bus_fault w) (bus_txn w) n) ++ slept w /\
    bus_fault w' = bus_fault w /\
    accel_regs w' = accel_regs w /\
    bus_writes w' = bus_writes w.
Proof.
  revert w. induction n as [| n IH]; intros w.
  - exists None, w. simpl. rewrite Nat.add_0_r. repeat split; reflexivity.
  - simpl. rewrite get_accel_data_eq.
    destruct (bus_fault w (bus_txn w)) eqn:Hf.
    + unfold bind. simpl.
      match goal with
      | |- context [_safe_read _ n d ?w1] =>
          destruct (IH w1) as (r & w' & Hr & Hres & Htxn & Hle & Hsl & Hbf & Har & Hbw)
      end.
      simpl in Hres, Htxn, Hle, Hsl, Hbf, Har, Hbw.
      exists r, w'. rewrite Hr.
      change (Nat.ltb (S (failures_before (bus_fault w) (S (bus_txn w)) n)) (S n))
        with (Nat.ltb (failures_before (bus_fault w) (S (bus_txn w)) n) n).
      rewrite Nat.add_succ_r.
      repeat split; try assumption.
      * rewrite Htxn.
        destruct (Nat.ltb (failures_before (bus_fault w) (S (bus_txn w)) n) n); lia.
      * lia.
      * rewrite Hsl. apply repeat_snoc_cons.
    + exists (Some (sample_of (accel_regs w (bus_txn w)))), (after_txn w).
      simpl. rewrite Nat.add_0_r.
      repeat split; try reflexivity; lia.
Qed.

(** X7: constructing the driver never raises.  If the wake-up write
    fails, nothing else is attempted: no configuration write, no
    sleep.  If it succeeds, the driver sleeps 100 ms and attempts the
    range configuration, sleeping 10 ms more only when that write
    succeeds too. *)
Theorem init_device_outcomes (a : Z) (w : world) :
  exists w',
    MPU6050_init a w = (Ok (mkMPU a), w') /\
    bus_fault w' = bus_fault w /\ accel_regs w' = accel_regs w /\
    (if bus_fault w (bus_txn w)
     then bus_txn w' = S (bus_txn w) /\
          bus_writes w' = bus_writes w /\ slept w' = slept w
     else
       bus_txn w' = S (S (bus_txn w)) /\
       if bus_fault w (S (bus_txn w))
       then bus_writes w' = (a, 107%Z, [x00]) :: bus_writes w /\
            slept w' = 100%Z :: slept w
       else bus_writes w' = (a, 28%Z, [x00]) :: (a, 107%Z, [x00]) :: bus_writes w /\
            slept w' = 10%Z :: 100%Z :: slept w).
Proof.
  unfold MPU6050_init, _init_device, try_except_OSError, bind, writeto_mem,
    sleep_ms, ret.
  simpl.
  destruct (bus_fault w (bus_txn w)) eqn:H1; simpl.
  - eexists. split; [reflexivity |]. simpl. repeat split.
  - destruct (bus_fault w (S (bus_txn w))) eqn:H2; simpl;
      eexists; (split; [reflexivity |]); simpl; repeat split.
Qed.

(** ** The tracker *)

Lemma upper_mode_default (mode : string) :
  String.eqb
    (PyStr.upper (if String.eqb mode EmptyString then "PITCH"%string else mode))
    "ROLL"
  = String.eqb (PyStr.upper mode) "ROLL".
Proof. destruct mode; reflexivity. Qed.

(** X8: [set_angle_mode] never raises and changes the axis and the mode
    name only: the reference and the last delta stay.  The mode is
    read without regard to case; "roll" selects the unit X axis, every
    other string (the empty one too) the unit Y axis and the name
    PITCH. *)
Theorem set_angle_mode_switches_axis_only (t : AngleTracker) (mode : string) :
  exists t',
    set_angle_mode t mode = Ok t' /\
    g_ref t' = g_ref t /\
    _last_delta t' = _last_delta t /\
    mpu t' = mpu t /\
    calibration_delay_ms t' = calibration_delay_ms t /\
    (if String.eqb (PyStr.upper mode) "ROLL"
     then axis t' = (1, 0, 0) /\ angle_mode t' = "ROLL"%string
     else axis t' = (0, 1, 0) /\ angle_mode t' = "PITCH"%string).
Proof.
  unfold set_angle_mode. rewrite set_axis_eq, upper_mode_default.
  destruct (String.eqb (PyStr.upper mode) "ROLL"); simpl;
    eexists; (split; [reflexivity |]); simpl; repeat split.
Qed.

Lemma set_angle_mode_total_aux (t : AngleTracker) (mode : string) :
  exists t', set_angle_mode t mode = Ok t'.
Proof.
  unfold set_angle_mode. rewrite set_axis_eq. simpl. eauto.
Qed.

Lemma recalibrate_cases (t : AngleTracker) (w : world) :
  (exists w', recalibrate t w = (Ok (false, t), w')) \/
  (exists r u w',
      _vec_norm r = Ok u /\
      recalibrate t w =
      (Ok (true, mkTracker (mpu t) (calibration_delay_ms t) (axis t)
                           (angle_mode t) u 0), w')).
Proof.
  destruct (safe_read_accel (mpu t) default_retries default_delay_ms
              (snd (sleep_ms (calibration_delay_ms t) w)))
    as [(Hall & _) | (_ & r & w' & Hr)].
  - left. rewrite reads_all_fail_after_sleep in Hall.
    exact (recalibrate_exhausted t w Hall).
  - right. destruct (recalibrate_on_sample t w w' r Hr) as (u & Hu & Hrec).
    exists r, u, w'. split; assumption.
Qed.

Lemma get_delta_cases (t : AngleTracker) (w : world) :
  (exists w', get_delta t w = (Ok (None, t), w')) \/
  (exists r d w',
      _signed_angle_about_axis (g_ref t) r (axis t) = Ok d /\
      get_delta t w = (Ok (Some d, with_last_delta t d), w')).
Proof.
  destruct (safe_read_accel (mpu t) default_retries default_delay_ms w)
    as [(Hall & _) | (_ & r & w' & Hr)].
  - left. exact (get_delta_exhausted t w Hall).
  - right. destruct (get_delta_on_sample t w w' r Hr) as (d & Hd & Hg).
    exists r, d, w'. split; assumption.
Qed.

Lemma signed_angle_in_range (v0 v1 ax : Vector3) (d : R) :
  _signed_angle_about_axis v0 v1 ax = Ok d -> -180 <= d < 180.
Proof.
  intros Hd. destruct (signed_angle_total v0 v1 ax) as (d' & Hd' & Hr).
  rewrite Hd in Hd'. inversion Hd'. subst. exact Hr.
Qed.

(** X9: a tracker is well formed from construction on, whatever the
    bus does: its axis is the unit X or the unit Y vector and named
    ROLL or PITCH accordingly, its reference has length 1 or is the
    zero vector, and its last delta lies in [-180, 180).  The
    constructor establishes this and [recalibrate], [get_delta] and
    [set_angle_mode] keep it. *)
Theorem tracker_ok_invariant :
  (forall mode a delay w t w',
      AngleTracker_init mode a delay w = (Ok t, w') -> tracker_ok t) /\
  (forall t w b t' w',
      tracker_ok t -> recalibrate t w = (Ok (b, t'), w') -> tracker_ok t') /\
  (forall t w o t' w',
      tracker_ok t -> get_delta t w = (Ok (o, t'), w') -> tracker_ok t') /\
  (forall t mode t',
      tracker_ok t -> set_angle_mode t mode = Ok t' -> tracker_ok t').
Proof.
  split; [| split; [| split]].
  - intros mode a delay w t w' Hinit.
    unfold AngleTracker_init, bind in Hinit.
    destruct (init_device_returns (mkMPU a) w) as [w0 Hdev].
    unfold MPU6050_init, bind in Hinit. rewrite Hdev in Hinit.
    unfold ret, lift in Hinit. rewrite set_axis_eq in Hinit.
    inversion Hinit. subst. clear Hinit.
    unfold tracker_ok. simpl.
    split; [| split; [left; ring | lra]].
    destruct (String.eqb _ "ROLL"); simpl; [left | right]; split; reflexivity.
  - intros t w b t' w' (Hax & Href & Hlast) Hrec.
    destruct (recalibrate_cases t w) as [(w1 & H) | (r & u & w1 & Hu & H)];
      rewrite H in Hrec; inversion Hrec; subst; clear Hrec.
    + split; [exact Hax | split; assumption].
    + unfold tracker_ok. simpl. split; [exact Hax |]. split; [| lra].
      destruct (vec_norm_unit_or_zero r u Hu) as [[_ ->] | [_ Hunit]];
        [right; reflexivity | left; exact Hunit].
  - intros t w o t' w' (Hax & Href & Hlast) Hget.
    destruct (get_delta_cases t w) as [(w1 & H) | (r & d & w1 & Hd & H)];
      rewrite H in Hget; inversion Hget; subst; clear Hget.
    + split; [exact Hax | split; assumption].
    + unfold tracker_ok. simpl. split; [exact Hax |]. split; [exact Href |].
      exact (signed_angle_in_range _ _ _ _ Hd).
  - intros t mode t' (Hax & Href & Hlast) Hset.
    unfold set_angle_mode in Hset. rewrite set_axis_eq in Hset.
    simpl in Hset. inversion Hset. subst. clear Hset.
    unfold tracker_ok. simpl. split; [| split; assumption].
    destruct (String.eqb _ "ROLL"); simpl; [left | right]; split; reflexivity.
Qed.

Lemma tracker0_ok : tracker_ok Sample.tracker0.
Proof.
  unfold tracker_ok. simpl. split; [right; split; reflexivity |].
  split; [left; ring | lra].
Qed.

(** A fresh PITCH tracker switched to roll. *)
Lemma tracker_ok_invariant_witness :
  exists t', set_angle_mode Sample.tracker0 "roll" = Ok t' /\ tracker_ok t'.
Proof.
  destruct (set_angle_mode_total_aux Sample.tracker0 "roll") as [t' Ht'].
  exists t'. split; [exact Ht' |].
  exact (proj2 (proj2 (proj2 tracker_ok_invariant)) _ _ _ tracker0_ok Ht').
Defined.

Lemma get_delta_cases_read (t : AngleTracker) (w : world) :
  (reads_all_fail default_retries w = true /\
   exists w', get_delta t w = (Ok (None, t), w')) \/
  (exists r d w',
      sensor_reads (mpu t) w r w' /\
      _signed_angle_about_axis (g_ref t) r (axis t) = Ok d /\
      get_delta t w = (Ok (Some d, with_last_delta t d), w')).
Proof.
  destruct (safe_read_accel (mpu t) default_retries default_delay_ms w)
    as [(Hall & _) | (_ & r & w' & Hr)].
  - left. split; [exact Hall | exact (get_delta_exhausted t w Hall)].
  - right. destruct (get_delta_on_sample t w w' r Hr) as (d & Hd & Hg).
    exists r, d, w'. split; [exact Hr |]. split; assumption.
Qed.

Lemma still_world_reads (m : MPU6050) (w : world) :
  bus_fault w (bus_txn w) = false ->
  accel_regs w (bus_txn w) = Sample.burst_z ->
  sensor_reads m w (0, 0, 1) (after_txn w).
Proof.
  intros Hf Hregs. rewrite <- sample_of_burst_z, <- Hregs.
  apply sensor_reads_first_try. exact Hf.
Qed.

(** X10: [get_last_delta] follows [get_delta]: after a [get_delta]
    that returned an angle it reports that angle, which lies in
    [-180, 180) and is the signed angle, about the stored axis, from
    the stored reference to the sample that the retried sensor read
    of this call returned; after one that returned [None] it still
    reports what it reported before.  [get_delta] changes nothing
    else. *)
Theorem get_last_delta_follows_get_delta
  (t t' : AngleTracker) (w w' : world) (o : option R) :
  get_delta t w = (Ok (o, t'), w') ->
  get_last_delta t' = match o with
                      | Some d => d
                      | None => get_last_delta t
                      end /\
  (forall d, o = Some d ->
             -180 <= d < 180 /\
             exists r, sensor_reads (mpu t) w r w' /\
                       _signed_angle_about_axis (g_ref t) r (axis t) = Ok d) /\
  g_ref t' = g_ref t /\ axis t' = axis t /\ angle_mode t' = angle_mode t.
Proof.
  intros Hget.
  destruct (get_delta_cases_read t w)
    as [(_ & w1 & H) | (r & d & w1 & Hr & Hd & H)];
    rewrite H in Hget; inversion Hget; subst; clear Hget.
  - split; [reflexivity |]. split; [intros d E; discriminate E |].
    repeat split.
  - simpl. split; [reflexivity |]. split; [| repeat split].
    intros d' E. inversion E. subst d'.
    split; [exact (signed_angle_in_range _ _ _ _ Hd) | eauto].
Qed.

(** A tracker calibrated along X meets the device at rest, Z up: the
    read returns -90 and -90 replaces the stale 45. *)
Lemma get_last_delta_follows_get_delta_witness :
  exists t' w',
    get_last_delta Sample.tilted_tracker = 45 /\
    get_delta Sample.tilted_tracker Sample.still_world = (Ok (Some (-90), t'), w') /\
    get_last_delta t' = -90.
Proof.
  assert (Hr : sensor_reads (mkMPU 104) Sample.still_world (0, 0, 1)
                 (after_txn Sample.still_world))
    by (apply still_world_reads; reflexivity).
  destruct (get_delta_on_sample Sample.tilted_tracker Sample.still_world _ _ Hr)
    as (d & Hd & Hg).
  simpl in Hd. rewrite signed_angle_x_to_z in Hd. inversion Hd. subst d.
  eexists. eexists. split; [reflexivity |]. split; [exact Hg |].
  exact (proj1 (get_last_delta_follows_get_delta _ _ _ _ _ Hg)).
Defined.

(** X11: [recalibrate] reports success exactly when one of its retried
    reads succeeded; it then stores as the reference the normalisation
    of the sample that read returned (a vector of length 1, or the
    zero vector for a zero sample) and resets the last delta to 0.  On
    failure the tracker is as it was, and in every case the axis and
    the mode are. *)
Theorem recalibrate_contract (t t' : AngleTracker) (w w' : world) (b : bool) :
  recalibrate t w = (Ok (b, t'), w') ->
  (b = true <-> reads_all_fail default_retries w = false) /\
  (b = true ->
   get_last_delta t' = 0 /\
   exists r,
     sensor_reads (mpu t) (snd (sleep_ms (calibration_delay_ms t) w)) r w' /\
     _vec_norm r = Ok (g_ref t') /\
     (_vec_dot (g_ref t') (g_ref t') = 1 \/ g_ref t' = (0, 0, 0))) /\
  (b = false -> t' = t) /\
  axis t' = axis t /\ angle_mode t' = angle_mode t.
Proof.
  intros Hrec.
  destruct (safe_read_accel (mpu t) default_retries default_delay_ms
              (snd (sleep_ms (calibration_delay_ms t) w)))
    as [(Hall & _) | (Hsome & r & w1 & Hr)];
    rewrite reads_all_fail_after_sleep in *.
  - destruct (recalibrate_exhausted t w Hall) as [w1 H].
    rewrite H in Hrec. inversion Hrec. subst. clear Hrec.
    split; [split; intros E; [discriminate | congruence] |].
    split; [intros E; discriminate E |].
    split; [reflexivity | split; reflexivity].
  - destruct (recalibrate_on_sample t w w1 r Hr) as (u & Hu & H).
    rewrite H in Hrec. inversion Hrec. subst. clear Hrec. simpl.
    split; [tauto |].
    split; [| split; [intros E; discriminate E | split; reflexivity]].
    intros _. split; [reflexivity |]. exists r.
    split; [exact Hr |]. split; [exact Hu |].
    destruct (vec_norm_unit_or_zero r u Hu) as [[_ ->] | [_ Hunit]];
      [right; reflexivity | left; exact Hunit].
Qed.

(** A tracker calibrated along X is recalibrated with the device at
    rest, Z up: the reference becomes (0, 0, 1), the stale 45 becomes
    0. *)
Lemma recalibrate_contract_witness :
  exists t' w',
    g_ref Sample.tilted_tracker = (1, 0, 0) /\
    recalibrate Sample.tilted_tracker Sample.still_world = (Ok (true, t'), w') /\
    g_ref t' = (0, 0, 1) /\
    get_last_delta t' = 0.
Proof.
  pose (ws := snd (sleep_ms 1500 Sample.still_world)).
  assert (Hr : sensor_reads (mkMPU 104) ws (0, 0, 1) (after_txn ws))
    by (apply still_world_reads; reflexivity).
  destruct (recalibrate_on_sample Sample.tilted_tracker Sample.still_world _ _ Hr)
    as (u & Hu & Hrec).
  rewrite vec_norm_of_unit in Hu by ring. inversion Hu. subst u.
  eexists. eexists. split; [reflexivity |]. split; [exact Hrec |].
  split; [reflexivity |].
  exact (proj1 (proj1 (proj2 (recalibrate_contract _ _ _ _ _ Hrec)) eq_refl)).
Defined.

(** * Further properties of [main.py] *)

(** ** The background sampler *)

(** X12: the background sampler never raises, whatever the bus does:
    each turn ends in its 100 ms sleep, and the tracker stays well
    formed with the reference, axis and mode it had; only the last
    delta can change. *)
Theorem periodic_read_never_fails (rounds : nat) (s : sampler) :
  exists s',
    periodic_read rounds s = (Ok tt, s') /\
    sm_naps s' = repeat READ_PERIOD_MS rounds ++ sm_naps s /\
    g_ref (sm_tracker s') = g_ref (sm_tracker s) /\
    axis (sm_tracker s') = axis (sm_tracker s) /\
    angle_mode (sm_tracker s') = angle_mode (sm_tracker s) /\
    (tracker_ok (sm_tracker s) -> tracker_ok (sm_tracker s')).
Proof.
  revert s. induction rounds as [| rounds IH]; intros s.
  - exists s. do 5 (split; [reflexivity |]). exact (fun H => H).
  - unfold periodic_read in *. simpl. unfold bind at 1. unfold periodic_turn at 1.
    destruct (get_delta_cases (sm_tracker s) (sm_world s))
      as [(w1 & H) | (r & d & w1 & Hd & H)]; rewrite H;
      match goal with
      | |- context [turns rounds periodic_turn ?s1] =>
          destruct (IH s1) as (s' & Hrun & Hnaps & Hg & Ha & Hm & Hok)
      end;
      simpl in Hnaps, Hg, Ha, Hm, Hok;
      exists s'; rewrite Hrun;
      (split; [reflexivity |]);
      (split; [rewrite Hnaps; apply repeat_snoc_cons |]);
      (split; [exact Hg |]); (split; [exact Ha |]); (split; [exact Hm |]).
    + exact Hok.
    + intros (Hax & Href & Hlast). apply Hok.
      split; [exact Hax |]. split; [exact Href |]. simpl.
      exact (signed_angle_in_range _ _ _ _ Hd).
Qed.

(** ** The HTML loader *)

(** X13: the page is read from the file system once.  After any first
    call, every later call returns the same page and leaves the cache
    as it is, whatever the file holds by then; in particular the
    placeholder page of a missing file stays even if the file appears
    later. *)
Theorem load_index_html_reads_once (file1 file2 cache : option string) :
  load_index_html file2 (snd (load_index_html file1 cache))
  = load_index_html file1 cache /\
  (cache = None -> file1 = None ->
   load_index_html file2 (snd (load_index_html file1 cache))
   = (Ok "<h1>index.html missing</h1>"%string,
      Some "<h1>index.html missing</h1>"%string)).
Proof.
  split.
  - destruct cache as [html |]; [| destruct file1 as [text |]]; reflexivity.
  - intros -> ->. reflexivity.
Qed.

Lemma load_index_html_reads_once_witness :
  load_index_html (Some "<p>{{SSID}}</p>"%string)
                  (snd (load_index_html None None))
  = (Ok "<h1>index.html missing</h1>"%string,
     Some "<h1>index.html missing</h1>"%string).
Proof.
  apply (load_index_html_reads_once None (Some "<p>{{SSID}}</p>"%string) None);
    reflexivity.
Defined.

(** ** The DNS loop *)

Lemma dns_turn_cases (ip_bytes : list byte) (n : net) :
  exists n',
    dns_turn ip_bytes n = (Ok tt, n') /\
    send_fault n' = send_fault n /\
    inbox n' = skipn 1 (inbox n) /\
    sendto_calls n' = answers ip_bytes (firstn 1 (inbox n)) (sendto_calls n).
Proof.
  unfold dns_turn, try_except_OSError, bind, recvfrom.
  destruct (inbox n) as [| [| data cli] rest] eqn:Hin; simpl.
  - eexists. split; [reflexivity |]. simpl. rewrite Hin. repeat split.
  - eexists. split; [reflexivity |]. repeat split.
  - assert (Hcond : orb (match data with [] => true | _ => false end)
                        (Nat.ltb (List.length data) 12)
                    = Nat.ltb (List.length data) 12)
      by (destruct data; reflexivity).
    rewrite Hcond.
    destruct (Nat.ltb (List.length data) 12).
    + eexists. split; [reflexivity |]. repeat split.
    + unfold sendto. simpl.
      destruct (send_fault n (List.length (sendto_calls n))); simpl;
        eexists; (split; [reflexivity |]); repeat split.
Qed.

Lemma answers_app (ip_bytes : list byte) (e1 e2 : list recv_event)
  (sent : list (list byte * peer)) :
  answers ip_bytes (e1 ++ e2) sent = answers ip_bytes e2 (answers ip_bytes e1 sent).
Proof.
  revert sent. induction e1 as [| [| data cli] e1 IH]; intros sent; simpl.
  - reflexivity.
  - apply IH.
  - destruct (Nat.ltb (List.length data) 12); apply IH.
Qed.

(** X14: the DNS loop never raises, neither on a quiet socket nor when
    [sendto] fails, and over any number of turns it calls [sendto]
    exactly once for each received datagram of at least 12 bytes, in
    the order received, each time with the response built from that
    datagram and addressed to its sender; shorter datagrams and
    would-block turns produce no call. *)
Theorem dns_loop_answers_in_order (ip : string) (ip_bytes : list byte)
  (rounds : nat) (n : net) :
  ip_bytes_of ip = Ok ip_bytes ->
  exists n',
    dns_catch_all ip rounds n = (Ok tt, n') /\
    sendto_calls n' = answers ip_bytes (firstn rounds (inbox n)) (sendto_calls n) /\
    inbox n' = skipn rounds (inbox n).
Proof.
  intros Hip. unfold dns_catch_all, bind at 1, lift. rewrite Hip.
  revert n. induction rounds as [| rounds IH]; intros n.
  - exists n. repeat split.
  - simpl turns. unfold bind at 1.
    destruct (dns_turn_cases ip_bytes n) as (n1 & Hturn & _ & Hin & Hsent).
    rewrite Hturn.
    destruct (IH n1) as (n' & Hrun & Hsent' & Hin').
    exists n'. split; [exact Hrun |].
    rewrite Hsent', Hin', Hsent, Hin.
    destruct (inbox n) as [| e rest]; simpl.
    + rewrite firstn_nil, skipn_nil. split; reflexivity.
    + split; [| reflexivity].
      destruct e as [| data cli]; [reflexivity |].
      destruct (Nat.ltb (List.length data) 12); reflexivity.
Qed.

(** A runt, a would-block turn and a query: one response. *)
Lemma dns_loop_answers_in_order_witness :
  exists n',
    dns_catch_all AP_IP 3 Sample.net_mixed = (Ok tt, n') /\
    sendto_calls n'
    = [(dns_response [xc0; xa8; x04; x01] Sample.query, Sample.asker)] /\
    inbox n' = [].
Proof.
  apply (dns_loop_answers_in_order AP_IP [xc0; xa8; x04; x01] 3 Sample.net_mixed).
  reflexivity.
Defined.

(** ** The HTTP engine: what no handler does *)

Lemma conn_grows_refl (c : conn) : conn_grows c c.
Proof.
  unfold conn_grows. repeat split; try lia.
  exists []. symmetry. apply app_nil_r.
Qed.

Lemma conn_grows_trans (c1 c2 c3 : conn) :
  conn_grows c1 c2 -> conn_grows c2 c3 -> conn_grows c1 c3.
Proof.
  intros (Hf1 & Hc1 & Hk1 & l1 & Hl1) (Hf2 & Hc2 & Hk2 & l2 & Hl2).
  unfold conn_grows. repeat split; try lia; try congruence.
  exists (l1 ++ l2). rewrite Hl2, Hl1. symmetry. apply app_assoc.
Qed.

Lemma grows_ret {S A : Type} (proj : S -> conn) (a : A) : grows proj (ret a).
Proof. intros s. apply conn_grows_refl. Qed.

Lemma grows_lift {S A : Type} (proj : S -> conn) (r : res A) : grows proj (lift r).
Proof. intros s. apply conn_grows_refl. Qed.

Lemma grows_bind {S A B : Type} (proj : S -> conn) (m : ST S A) (k : A -> ST S B) :
  grows proj m -> (forall a, grows proj (k a)) -> grows proj (bind m k).
Proof.
  intros Hm Hk s. unfold bind. specialize (Hm s).
  destruct (m s) as [[a | e] s1]; simpl in *.
  - eapply conn_grows_trans; [exact Hm | apply Hk].
  - exact Hm.
Qed.

Lemma grows_try_except {S A : Type} (proj : S -> conn) (body handler : ST S A) :
  grows proj body -> grows proj handler -> grows proj (try_except body handler).
Proof.
  intros Hb Hh s. unfold try_except. specialize (Hb s).
  destruct (body s) as [[a | e] s1]; simpl in *.
  - exact Hb.
  - eapply conn_grows_trans; [exact Hb | apply Hh].
Qed.

Lemma grows_if {S A : Type} (proj : S -> conn) (b : bool) (m1 m2 : ST S A) :
  grows proj m1 -> grows proj m2 -> grows proj (if b then m1 else m2).
Proof. destruct b; auto. Qed.

Lemma grows_readline : grows (fun c => c) readline.
Proof.
  intros c. unfold readline.
  destruct (rd_pending c) as [| [b |] rest]; simpl;
    unfold conn_grows; simpl; repeat split; try lia;
    exists []; symmetry; apply app_nil_r.
Qed.

Lemma grows_awrite (chunk : string) : grows (fun c => c) (awrite chunk).
Proof.
  intros c. unfold awrite.
  destruct (wr_fault c (wr_calls c)); simpl;
    unfold conn_grows; simpl; repeat split; try lia.
  - exists []. symmetry. apply app_nil_r.
  - exists [chunk]. reflexivity.
Qed.

Lemma grows_aclose : grows (fun c => c) aclose.
Proof.
  intros c. unfold aclose, conn_grows. simpl. repeat split; try lia.
  exists []. symmetry. apply app_nil_r.
Qed.

Lemma grows_readexactly (n : Z) : grows (fun c => c) (readexactly n).
Proof.
  unfold readexactly. apply grows_bind; [apply grows_readline |].
  intros a. apply grows_ret.
Qed.

Lemma grows_send_response (status : Z) (ctype body : string) :
  grows (fun c => c) (send_response status ctype body).
Proof.
  unfold send_response. apply grows_bind; [apply grows_awrite |].
  intros _. apply grows_if; [apply grows_awrite | apply grows_ret].
Qed.

Lemma grows_on_conn {A : Type} (m : ST conn A) :
  grows (fun c => c) m -> grows sv_conn (on_conn m).
Proof.
  intros Hm st. unfold on_conn. specialize (Hm (sv_conn st)).
  destruct (m (sv_conn st)) as [r c']. exact Hm.
Qed.

Lemma grows_on_tracker {A : Type} (m : AngleTracker -> M (A * AngleTracker)) :
  grows sv_conn (on_tracker m).
Proof.
  intros st. unfold on_tracker.
  destruct (m (sv_tracker st) (sv_world st)) as [[[a t'] | e] w'];
    apply conn_grows_refl.
Qed.

Section HttpEngine.

Variable decode : string -> res string.
Variable py_int : string -> res Z.
Variable format_angle : R -> string.
Variable index_page : string.

Lemma grows_headers : grows (fun c => c) (headers decode py_int).
Proof.
  intros c. unfold headers.
  destruct (read_headers decode py_int (rd_pending c) 0 EmptyString) as [r rest].
  simpl. unfold conn_grows. simpl. repeat split; try lia.
  exists []. symmetry. apply app_nil_r.
Qed.

Lemma grows_dispatch (method path : string) :
  grows sv_conn (dispatch format_angle index_page method path).
Proof.
  unfold dispatch.
  repeat apply grows_if;
    try (apply grows_on_conn; apply grows_send_response).
  - apply grows_bind; [apply grows_on_tracker |].
    intros d. apply grows_on_conn. apply grows_send_response.
  - apply grows_bind; [apply grows_on_tracker |].
    intros ok. apply grows_on_conn. apply grows_send_response.
Qed.

Lemma grows_serve : grows sv_conn (serve decode py_int format_angle index_page).
Proof.
  unfold serve.
  apply grows_bind; [apply grows_on_conn, grows_readline |].
  intros req. apply grows_if; [apply grows_on_conn, grows_aclose |].
  apply grows_bind; [apply grows_try_except; [apply grows_lift | apply grows_ret] |].
  intros line.
  apply grows_bind; [apply grows_on_conn, grows_headers |].
  intros ch.
  apply grows_bind.
  - apply grows_if; [apply grows_ret |].
    apply grows_try_except; [apply grows_on_conn, grows_readexactly | apply grows_ret].
  - intros _. apply grows_dispatch.
Qed.

(** X15: [handle_client] never raises and always closes the
    connection, on every path: normal completion, early return and
    any exception.  What it does to the connection is append output
    and close; earlier output is never altered. *)
Theorem handle_client_always_closes (st : server) :
  exists st',
    handle_client decode py_int format_angle index_page st = (Ok tt, st') /\
    (closes (sv_conn st) < closes (sv_conn st'))%nat /\
    exists l, wr_chunks (sv_conn st') = wr_chunks (sv_conn st) ++ l.
Proof.
  unfold handle_client, bind.
  set (h500 := try_except (on_conn (send_response 500 text_plain "Server error"))
                          (ret tt)).
  assert (Hg500 : grows sv_conn h500).
  { apply grows_try_except; [| apply grows_ret].
    apply grows_on_conn, grows_send_response. }
  assert (Hok500 : forall s, fst (h500 s) = Ok tt).
  { intros s. unfold h500, try_except.
    destruct (on_conn (send_response 500 text_plain "Server error") s)
      as [[[] | e] s1]; reflexivity. }
  pose proof (grows_try_except sv_conn _ _ grows_serve Hg500 st) as Hg.
  assert (Hok : fst (try_except (serve decode py_int format_angle index_page) h500 st)
                = Ok tt).
  { unfold try_except.
    destruct (serve decode py_int format_angle index_page st) as [[[] | e] s1];
      [reflexivity | apply Hok500]. }
  destruct (try_except (serve decode py_int format_angle index_page) h500 st)
    as [r s1].
  simpl in Hok, Hg. subst r.
  unfold try_except, on_conn, aclose. simpl.
  eexists. split; [reflexivity |]. simpl.
  destruct Hg as (_ & _ & Hcl & l & Hl).
  split; [lia | exists l; exact Hl].
Qed.

(** X16: when the peer closed before sending a request line, nothing
    is written, the tracker is not touched, and the connection is
    closed (by the early return and again by the [finally] block). *)
Theorem handle_client_on_early_close (st : server) :
  (rd_pending (sv_conn st) = [] \/
   exists rest, rd_pending (sv_conn st) = RdBytes EmptyString :: rest) ->
  exists st',
    handle_client decode py_int format_angle index_page st = (Ok tt, st') /\
    wr_chunks (sv_conn st') = wr_chunks (sv_conn st) /\
    wr_calls (sv_conn st') = wr_calls (sv_conn st) /\
    closes (sv_conn st') = S (S (closes (sv_conn st))) /\
    sv_tracker st' = sv_tracker st /\ sv_world st' = sv_world st.
Proof.
  intros Hrd. destruct st as [[pending wf wc ch cls] t w]. simpl in Hrd.
  destruct Hrd as [-> | [rest ->]];
    (eexists; split; [reflexivity |]); simpl; repeat split.
Qed.

(** X17: when reading the request line fails, or reading or decoding
    a header line raises, the client is sent the 500 response: its
    header block and the body [Server error] (both writes succeeding),
    and nothing else. *)
Theorem handle_client_read_fault_gives_500 (st : server)
  (req : string) (hdrs rest : list rd_event) (e : exn) :
  (rd_pending (sv_conn st) = RdError :: rest \/
   (rd_pending (sv_conn st) = RdBytes req :: hdrs /\
    req <> EmptyString /\
    read_headers decode py_int hdrs 0 EmptyString = (Raise e, rest))) ->
  wr_fault (sv_conn st) (wr_calls (sv_conn st)) = false ->
  wr_fault (sv_conn st) (S (wr_calls (sv_conn st))) = false ->
  exists st',
    handle_client decode py_int format_angle index_page st = (Ok tt, st') /\
    wr_chunks (sv_conn st')
    = wr_chunks (sv_conn st)
      ++ [response_header 500 text_plain "Server error"; "Server error"%string] /\
    closes (sv_conn st') = S (closes (sv_conn st)).
Proof.
  intros Hrd Hw1 Hw2. destruct st as [[pending wf wc ch cls] t w]. simpl in *.
  destruct Hrd as [-> | (-> & Hreq & Hhdrs)].
  - unfold handle_client, bind, try_except, serve, bind, on_conn, readline. simpl.
    unfold send_response, bind, awrite. simpl. rewrite Hw1. simpl. rewrite Hw2.
    simpl. eexists. split; [reflexivity |]. simpl.
    rewrite <- app_assoc. split; reflexivity.
  - assert (Hne : String.eqb req EmptyString = false)
      by (destruct req; [contradiction | reflexivity]).
    unfold handle_client, bind, try_except, serve, bind, on_conn, readline. simpl.
    rewrite Hne. unfold lift, ret, headers.
    destruct (decode req) as [line | e']; simpl; rewrite Hhdrs; simpl;
      unfold send_response, bind, awrite; simpl; rewrite Hw1; simpl; rewrite Hw2;
      simpl; (eexists; split; [reflexivity |]); simpl;
      rewrite <- app_assoc; split; reflexivity.
Qed.

Lemma dispatch_not_found (method path : string) :
  String.eqb method "GET" = false ->
  andb (String.eqb path "/recalibrate") (String.eqb method "POST") = false ->
  dispatch format_angle index_page method path
  = on_conn (send_response 404 text_plain "Not found").
Proof.
  intros Hget Hpost. unfold dispatch, str_in. simpl existsb.
  rewrite Hget. cbn [andb orb]. rewrite orb_false_r, Hpost. reflexivity.
Qed.

Lemma send_response_with_body (status : Z) (ctype body : string) (c : conn) :
  body <> EmptyString -> (status =? 204)%Z = false ->
  wr_fault c (wr_calls c) = false ->
  wr_fault c (S (wr_calls c)) = false ->
  send_response status ctype body c
  = (Ok tt,
     mkConn (rd_pending c) (wr_fault c) (S (S (wr_calls c)))
            (wr_chunks c ++ [response_header status ctype body; body])
            (closes c)).
Proof.
  intros Hbody Hstatus Hw1 Hw2.
  assert (Hne : String.eqb body EmptyString = false)
    by (destruct body; [contradiction | reflexivity]).
  unfold send_response, bind, awrite. rewrite Hne, Hstatus, Hw1. simpl.
  rewrite Hw2. rewrite <- app_assoc. reflexivity.
Qed.

(** X18: only GET is routed, and POST to [/recalibrate]: a request
    with any other method (or a POST elsewhere) gets the 404 response
    with the body [Not found], whatever its path, and the tracker is
    not touched. *)
Theorem dispatch_other_methods_not_found (method path : string) (st : server) :
  method <> "GET"%string ->
  ~ (path = "/recalibrate"%string /\ method = "POST"%string) ->
  wr_fault (sv_conn st) (wr_calls (sv_conn st)) = false ->
  wr_fault (sv_conn st) (S (wr_calls (sv_conn st))) = false ->
  exists st',
    dispatch format_angle index_page method path st = (Ok tt, st') /\
    wr_chunks (sv_conn st')
    = wr_chunks (sv_conn st)
      ++ [response_header 404 text_plain "Not found"; "Not found"%string] /\
    sv_tracker st' = sv_tracker st /\ sv_world st' = sv_world st.
Proof.
  intros Hget Hpost Hw1 Hw2.
  rewrite dispatch_not_found.
  - unfold on_conn.
    rewrite (send_response_with_body 404 text_plain "Not found" (sv_conn st))
      by (assumption || discriminate || reflexivity).
    eexists. split; [reflexivity |]. simpl. repeat split.
  - now apply String.eqb_neq.
  - apply andb_false_iff.
    destruct (String.eqb_spec path "/recalibrate") as [Hp | Hp];
      [| left; reflexivity].
    right. apply String.eqb_neq. intros Hm. apply Hpost. split; assumption.
Qed.

(** X19: a request line that cannot be decoded is served with the
    defaults (empty method, path [/]) and therefore gets the 404
    response, not the 500 one, provided its headers are read without
    an exception. *)
Theorem handle_client_undecodable_line_gives_404 (st : server)
  (req : string) (hdrs rest : list rd_event) (e : exn) (cl : Z) (host : string) :
  rd_pending (sv_conn st) = RdBytes req :: hdrs ->
  req <> EmptyString ->
  decode req = Raise e ->
  read_headers decode py_int hdrs 0 EmptyString = (Ok (cl, host), rest) ->
  wr_fault (sv_conn st) (wr_calls (sv_conn st)) = false ->
  wr_fault (sv_conn st) (S (wr_calls (sv_conn st))) = false ->
  exists st',
    handle_client decode py_int format_angle index_page st = (Ok tt, st') /\
    wr_chunks (sv_conn st')
    = wr_chunks (sv_conn st)
      ++ [response_header 404 text_plain "Not found"; "Not found"%string] /\
    closes (sv_conn st') = S (closes (sv_conn st)).
Proof.
  intros Hpend Hreq Hdec Hhdrs Hw1 Hw2.
  destruct st as [[pending wf wc ch cls] t w]. simpl in *. subst pending.
  assert (Hne : String.eqb req EmptyString = false)
    by (destruct req; [contradiction | reflexivity]).
  unfold handle_client, bind. unfold try_except at 1.
  unfold serve, bind. unfold on_conn at 1. unfold readline. simpl.
  rewrite Hne. unfold try_except at 1. unfold lift. rewrite Hdec.
  unfold ret at 1. simpl PyStr.split_ws.
  unfold on_conn at 1. unfold headers. simpl. rewrite Hhdrs. simpl.
  match goal with
  | |- context [(if (cl =? 0)%Z then ?a else ?b) ?s] =>
      destruct (drain_body cl s) as [pending Hdrain]
  end.
  simpl in Hdrain. rewrite Hdrain.
  rewrite dispatch_not_found by reflexivity.
  unfold on_conn at 1. simpl.
  rewrite (send_response_with_body 404 text_plain "Not found")
    by (assumption || discriminate || reflexivity).
  unfold try_except, on_conn, aclose. simpl.
  eexists. split; [reflexivity |]. simpl. split; reflexivity.
Qed.

Lemma dispatch_angle_eq :
  dispatch format_angle index_page "GET" "/angle"
  = (d <- on_tracker get_delta ;;
     on_conn (send_response 200 text_plain
                match d with
                | None => "--.--"%string
                | Some d => format_angle d
                end))%ST.
Proof. reflexivity. Qed.

Lemma dispatch_recalibrate_eq (method : string) :
  method = "GET"%string \/ method = "POST"%string ->
  dispatch format_angle index_page method "/recalibrate"
  = (ok <- on_tracker recalibrate ;;
     on_conn (send_response 200 text_plain
                (if ok : bool then "OK"%string else "ERR"%string)))%ST.
Proof. intros [-> | ->]; reflexivity. Qed.

(** X20: [GET /angle] never fails on account of the sensor.  It runs
    one [get_delta] on the shared tracker and answers 200 with the
    rendered angle, or with the placeholder [--.--] exactly when all
    retried reads failed, in which case the tracker is as before. *)
Theorem angle_route_degrades_to_placeholder (st : server) :
  exists o t' w',
    get_delta (sv_tracker st) (sv_world st) = (Ok (o, t'), w') /\
    dispatch format_angle index_page "GET" "/angle" st
    = on_conn (send_response 200 text_plain
                 match o with
                 | None => "--.--"%string
                 | Some d => format_angle d
                 end)
              (mkServer (sv_conn st) t' w') /\
    (o = None <-> reads_all_fail default_retries (sv_world st) = true) /\
    (o = None -> t' = sv_tracker st).
Proof.
  clear decode py_int.
  rewrite dispatch_angle_eq. unfold bind, on_tracker.
  destruct (safe_read_accel (mpu (sv_tracker st)) default_retries default_delay_ms
              (sv_world st))
    as [(Hall & _) | (Hsome & r & w' & Hr)].
  - destruct (get_delta_exhausted (sv_tracker st) (sv_world st) Hall) as [w' Hg].
    exists None, (sv_tracker st), w'. rewrite Hg.
    split; [reflexivity |]. split; [reflexivity |]. split; [tauto | reflexivity].
  - destruct (get_delta_on_sample (sv_tracker st) (sv_world st) w' r Hr)
      as (d & _ & Hg).
    exists (Some d), (with_last_delta (sv_tracker st) d), w'. rewrite Hg.
    split; [reflexivity |]. split; [reflexivity |].
    split; [split; intros E; [discriminate | congruence] | intros E; discriminate E].
Qed.

(** X21: [/recalibrate], by GET or by POST, runs one [recalibrate] on
    the shared tracker and answers 200 with [OK] when it succeeded and
    [ERR] when it did not; it never answers 500 on account of the
    sensor. *)
Theorem recalibrate_route_reports_outcome (method : string) (st : server) :
  method = "GET"%string \/ method = "POST"%string ->
  exists b t' w',
    recalibrate (sv_tracker st) (sv_world st) = (Ok (b, t'), w') /\
    dispatch format_angle index_page method "/recalibrate" st
    = on_conn (send_response 200 text_plain
                 (if b then "OK"%string else "ERR"%string))
              (mkServer (sv_conn st) t' w') /\
    (b = false -> t' = sv_tracker st).
Proof.
  intros Hm. rewrite (dispatch_recalibrate_eq method Hm). unfold bind, on_tracker.
  destruct (recalibrate_cases (sv_tracker st) (sv_world st))
    as [(w' & H) | (r & u & w' & _ & H)]; rewrite H.
  - exists false, (sv_tracker st), w'. repeat split.
  - eexists true, _, w'. split; [reflexivity |]. split; [reflexivity |].
    intros E. discriminate E.
Qed.

(** X22: the header loop stops at the blank line: given header lines
    that decode, none of them empty or a bare CRLF, followed by the
    blank line, it returns normally and leaves exactly the reads after
    the blank line, so a body or a following request is not consumed
    by it. *)
Theorem read_headers_stops_at_blank_line (lines : list string)
  (rest : list rd_event) (content_length : Z) (host_hdr : string) :
  Forall (fun h => h <> EmptyString /\ h <> PyStr.CRLF /\
                   exists t, decode h = Ok t) lines ->
  exists cl host,
    read_headers decode py_int
      (map RdBytes lines ++ RdBytes PyStr.CRLF :: rest) content_length host_hdr
    = (Ok (cl, host), rest).
Proof.
  intros Hlines. revert content_length host_hdr.
  induction Hlines as [| h lines (Hne & Hncrlf & t & Hdec) _ IH];
    intros content_length host_hdr.
  - simpl. eauto.
  - simpl map. simpl app. cbn [read_headers].
    apply String.eqb_neq in Hne, Hncrlf. rewrite Hne, Hncrlf. cbn [orb].
    rewrite Hdec. apply IH.
Qed.

End HttpEngine.

(** ** The statements above on sample connections *)

Lemma periodic_read_never_fails_witness :
  exists s',
    periodic_read 2 Sample.sampler0 = (Ok tt, s') /\
    sm_naps s' = [100%Z; 100%Z] /\
    tracker_ok (sm_tracker s').
Proof.
  destruct (periodic_read_never_fails 2 Sample.sampler0)
    as (s' & Hrun & Hnaps & _ & _ & _ & Hok).
  exists s'. split; [exact Hrun |]. split; [exact Hnaps |].
  exact (Hok tracker0_ok).
Defined.

Lemma handle_client_on_early_close_witness :
  exists st',
    handle_client Sample.decode_ascii PyStr.int_of_digits Sample.format_fixed
                  Sample.page Sample.closed_server = (Ok tt, st') /\
    wr_chunks (sv_conn st') = [] /\
    closes (sv_conn st') = 2%nat.
Proof.
  destruct (handle_client_on_early_close
              Sample.decode_ascii PyStr.int_of_digits Sample.format_fixed
              Sample.page Sample.closed_server (or_introl eq_refl))
    as (st' & Hrun & Hch & _ & Hcl & _).
  exists st'. split; [exact Hrun |]. split; [exact Hch | exact Hcl].
Defined.

Lemma handle_client_read_fault_gives_500_witness :
  exists st',
    handle_client Sample.decode_ascii PyStr.int_of_digits Sample.format_fixed
                  Sample.page Sample.broken_server = (Ok tt, st') /\
    wr_chunks (sv_conn st')
    = [response_header 500 text_plain "Server error"; "Server error"%string] /\
    closes (sv_conn st') = 1%nat.
Proof.
  apply (handle_client_read_fault_gives_500
           Sample.decode_ascii PyStr.int_of_digits Sample.format_fixed Sample.page
           Sample.broken_server EmptyString [] [] OSError).
  - left. reflexivity.
  - reflexivity.
  - reflexivity.
Defined.

Lemma dispatch_other_methods_not_found_witness :
  exists st',
    dispatch Sample.format_fixed Sample.page "HEAD" "/" Sample.head_server
    = (Ok tt, st') /\
    wr_chunks (sv_conn st')
    = [response_header 404 text_plain "Not found"; "Not found"%string] /\
    sv_tracker st' = Sample.tracker0 /\ sv_world st' = Sample.still_world.
Proof.
  apply (dispatch_other_methods_not_found
           Sample.format_fixed Sample.page "HEAD" "/" Sample.head_server).
  - discriminate.
  - intros [H _]. discriminate H.
  - reflexivity.
  - reflexivity.
Defined.

Lemma handle_client_undecodable_line_gives_404_witness :
  exists st',
    handle_client Sample.decode_7bit PyStr.int_of_digits Sample.format_fixed
                  Sample.page Sample.garbled_server = (Ok tt, st') /\
    wr_chunks (sv_conn st')
    = [response_header 404 text_plain "Not found"; "Not found"%string] /\
    closes (sv_conn st') = 1%nat.
Proof.
  eapply (handle_client_undecodable_line_gives_404
            Sample.decode_7bit PyStr.int_of_digits Sample.format_fixed Sample.page
            Sample.garbled_server).
  - reflexivity.
  - discriminate.
  - reflexivity.
  - reflexivity.
  - reflexivity.
  - reflexivity.
Defined.

Lemma angle_route_degrades_to_placeholder_witness :
  exists t' w',
    get_delta Sample.tracker0 Sample.dead_world = (Ok (None, t'), w') /\
    dispatch Sample.format_fixed Sample.page "GET" "/angle" Sample.dead_sensor_server
    = on_conn (send_response 200 text_plain "--.--")
              (mkServer (sv_conn Sample.dead_sensor_server) t' w').
Proof.
  destruct (angle_route_degrades_to_placeholder
              Sample.format_fixed Sample.page Sample.dead_sensor_server)
    as (o & t' & w' & Hg & Hd & Hiff & _).
  assert (Ho : o = None) by (apply Hiff; reflexivity).
  subst o. exists t', w'. split; [exact Hg | exact Hd].
Defined.

Lemma recalibrate_route_reports_outcome_witness :
  exists t' w',
    recalibrate Sample.tracker0 Sample.dead_world = (Ok (false, t'), w') /\
    dispatch Sample.format_fixed Sample.page "POST" "/recalibrate"
             Sample.dead_sensor_server
    = on_conn (send_response 200 text_plain "ERR")
              (mkServer (sv_conn Sample.dead_sensor_server) t' w').
Proof.
  destruct (recalibrate_route_reports_outcome
              Sample.format_fixed Sample.page "POST" Sample.dead_sensor_server
              (or_intror eq_refl))
    as (b & t' & w' & Hr & Hd & _).
  destruct (recalibrate_exhausted Sample.tracker0 Sample.dead_world eq_refl)
    as [w1 H1].
  simpl in Hr. rewrite H1 in Hr. inversion Hr. subst.
  exists Sample.tracker0, w'. split; [exact H1 | exact Hd].
Defined.

Lemma read_headers_stops_at_blank_line_witness :
  exists cl host,
    read_headers Sample.decode_ascii PyStr.int_of_digits
      (map RdBytes [("Content-Length: 3" ++ PyStr.CRLF)%string]
       ++ RdBytes PyStr.CRLF :: [RdBytes "abc"])
      0 EmptyString
    = (Ok (cl, host), [RdBytes "abc"]).
Proof.
  apply (read_headers_stops_at_blank_line Sample.decode_ascii PyStr.int_of_digits).
  constructor; [| constructor].
  split; [discriminate |]. split; [discriminate |].
  exists ("Content-Length: 3" ++ PyStr.CRLF)%string. reflexivity.
Defined.
